(** * SocietyAI: the orchestration engine of package societyai

    A shallow embedding of models.go and of the engine file (Society,
    SocietyWithSynthesis, SocietyCollaborative and the functions they call).

    Conventions of the embedding.
    - Go [string] is [string] (a byte sequence), Go [int] is [Z]; loop
      counters that range over a slice are [nat].
    - A Go function returning [(string, error)] returns a pair
      [string * option error], [None] being the nil error.
    - An [AIModel] interface value is [option ModelId]: [None] is the nil
      interface, [Some m] a capability supplied by the caller.  What a
      capability answers is not part of the engine: it is the section variable
      [Process], which may read and change a [World] the engine never looks at.
    - Runtime panics and operations that block for ever are the [Panic] results
      of the type [res]; stateful code lives in the monad [M], whose state is
      the world together with the trace of every [Process] call made so far.
    - Goroutines: the order in which the workers of a fan-out make their call
      and complete is an explicit argument [sched], a list of agent indices.
      A call is atomic.  How far the workers have got when a runner returns
      on an error is said at [firstError].  The deadlines of the context are not modelled: the
      engine never inspects the context, so an expired deadline reaches it
      only as a failure returned by [Process]. *)

From Stdlib Require Import String Ascii List ZArith Lia Bool Arith PeanoNat.
From Stdlib Require Import Permutation DecimalString.
Import ListNotations.
Local Open Scope string_scope.

(** ** Text helpers *)

(** The byte written [\n] in the Go literals. *)
Definition nl : string := String (ascii_of_nat 10) EmptyString.

(** [fmt.Sprintf("%d", n)]. *)
Definition Sprintf_d (n : Z) : string := NilZero.string_of_int (Z.to_int n).

(** ** models.go *)

(** Error values, identified by the constructor that made them and their
    message: [errors.New(msg)] and [NewError(msg)] (the package's [*Error]). *)
Inductive error : Type :=
| errorsNew (msg : string)
| NewError (msg : string).

(** The [Error()] method. *)
Definition ErrorText (e : error) : string :=
  match e with
  | errorsNew msg => msg
  | NewError msg => msg
  end.

Definition ErrModelNotSupported : error := errorsNew "modèle d'IA non supporté".
Definition ErrProcessingFailed : error := errorsNew "échec du traitement du prompt".
Definition ErrInvalidAgentCount : error := NewError "le nombre d'agents doit être positif".
Definition ErrNoModelsSpecified : error := NewError "au moins un modèle AI doit être spécifié".

(** A capability supplied by the caller, and an interface value holding one. *)
Definition ModelId : Type := nat.
Definition AIModel : Type := option ModelId.

Record Agent : Type := mkAgent {
  ID : Z;
  Model : AIModel;
  Prompt : string;
  Phase : Z;
  CollabContext : string;
  SharedAnalysis : string;
  DimensionToExplore : string
}.

Record CollaborativeContext : Type := mkContext {
  InitialAnalysis : string;
  Dimensions : list string;
  SharedInsights : list string
}.

(** A buffered channel: its capacity and the values waiting in it, oldest
    first. *)
Record Chan (T : Type) : Type := mkChan {
  capacity : nat;
  buffer : list T
}.
Arguments mkChan {T} _ _.
Arguments capacity {T} _.
Arguments buffer {T} _.

(** The agents of a group all hold the group's own [Results] channel, so the
    channel is kept once, here. [Context] is a pointer, nil outside the
    collaborative mode. *)
Record SocietyGroup : Type := mkGroup {
  Agents : list Agent;
  Models : list AIModel;
  MultiModel : bool;
  Results : Chan string;
  Context : option CollaborativeContext
}.

(** The fields [Prompt] and [MultiModel] of [Config] are [cfgPrompt] and
    [cfgMultiModel] here, the names being taken by [Agent] and
    [SocietyGroup]. *)
Record Config : Type := mkConfig {
  cfgPrompt : string;
  AgentCount : Z;
  cfgMultiModel : bool;
  Collaborative : bool
}.

Definition NewConfig (prompt : string) (agentCount : Z) : Config :=
  mkConfig prompt agentCount true false.

(** ** Panics and blocked operations *)

Inductive fault : Type :=
| NilDereference
| IndexOutOfRange
| DivideByZero
| MakeOutOfRange
| Blocked.

Inductive res (A : Type) : Type :=
| Val (a : A)
| Panic (f : fault).
Arguments Val {A} _.
Arguments Panic {A} _.

Definition res_bind {A B : Type} (r : res A) (k : A -> res B) : res B :=
  match r with
  | Val a => k a
  | Panic f => Panic f
  end.

Declare Scope res_scope.
Delimit Scope res_scope with res.
Notation "x <-- c ; k" := (res_bind c (fun x => k))
  (at level 61, c at next level, right associativity) : res_scope.

(** [l[i]]. *)
Definition index {A : Type} (l : list A) (i : nat) : res A :=
  match nth_error l i with
  | Some a => Val a
  | None => Panic IndexOutOfRange
  end.

(** ** Channels *)

Definition makeChan {T : Type} (n : nat) : Chan T := mkChan n [].

(** [ch <- v]: a send on a full buffer that nobody drains never completes. *)
Definition send {T : Type} (ch : Chan T) (v : T) : res (Chan T) :=
  if (length (buffer ch) <? capacity ch)%nat
  then Val (mkChan (capacity ch) (buffer ch ++ [v]))
  else Panic Blocked.

(** [<-ch], all senders being done: on an empty buffer it never completes. *)
Definition recv {T : Type} (ch : Chan T) : res (T * Chan T) :=
  match buffer ch with
  | v :: rest => Val (v, mkChan (capacity ch) rest)
  | [] => Panic Blocked
  end.

(** ** Pool construction *)

Definition perspectives : list string :=
  [ "Analyse cette demande de manière factuelle et concise: ";
    "Considère les implications et le contexte plus large de cette demande: ";
    "Identifie les exigences spécifiques et le but de cette demande: ";
    "Réfléchis aux approches les plus innovantes pour répondre à cette demande: ";
    "Examine les aspects techniques et pratiques de cette demande: " ].

(** Go's [%] truncates towards zero ([Z.rem]); a negative remainder is a
    negative index. *)
Definition generatePromptForAgent (basePrompt : string) (agentID : Z) : res string :=
  let k := Z.rem agentID (Z.of_nat (length perspectives)) in
  if (k <? 0)%Z then Panic IndexOutOfRange
  else (perspective <-- index perspectives (Z.to_nat k);
        Val (perspective ++ basePrompt))%res.

(** The model bound to agent [i]. *)
Definition assignModel (multiModel : bool) (models : list AIModel) (i : nat) : res AIModel :=
  if multiModel && (1 <? length models)%nat
  then index models (i mod length models)
  else index models 0.

(** The loop of [createSociety] from counter [i], [n] iterations left. *)
Fixpoint societyAgents (config : Config) (models : list AIModel) (n i : nat)
  : res (list Agent) :=
  match n with
  | O => Val []
  | S n' =>
      (model <-- assignModel (cfgMultiModel config) models i;
       agentPrompt <-- generatePromptForAgent (cfgPrompt config) (Z.of_nat i);
       rest <-- societyAgents config models n' (S i);
       Val (mkAgent (Z.of_nat i) model agentPrompt 0 "" "" "" :: rest))%res
  end.

Definition createSociety (config : Config) (models : list AIModel) : res SocietyGroup :=
  if (AgentCount config <? 0)%Z then Panic MakeOutOfRange
  else
    let n := Z.to_nat (AgentCount config) in
    (agents <-- societyAgents config models n 0;
     Val (mkGroup agents models (cfgMultiModel config) (makeChan n) None))%res.

Definition allDimensions : list string :=
  [ "Compréhension fondamentale et factuelle du sujet";
    "Aspects pratiques et mise en œuvre concrète";
    "Implications plus larges et considérations de contexte";
    "Défis potentiels et approches pour les surmonter";
    "Applications pratiques et exemples concrets" ].

(** The loop of [createCollaborativeSociety]. *)
Fixpoint collaborativeAgents (config : Config) (models : list AIModel)
  (dimensions : list string) (n i : nat) : res (list Agent) :=
  match n with
  | O => Val []
  | S n' =>
      (model <-- assignModel (cfgMultiModel config) models i;
       dimension <-- match length dimensions with
                     | O => Panic DivideByZero
                     | S _ => index dimensions (i mod length dimensions)
                     end;
       rest <-- collaborativeAgents config models dimensions n' (S i);
       Val (mkAgent (Z.of_nat i) model (cfgPrompt config) 0 "" "" dimension :: rest))%res
  end.

Definition createCollaborativeSociety (config : Config) (models : list AIModel)
  : res SocietyGroup :=
  if (AgentCount config <? 0)%Z then Panic MakeOutOfRange
  else
    let n := Z.to_nat (AgentCount config) in
    let dimensions :=
      if (AgentCount config <? Z.of_nat (length allDimensions))%Z
      then firstn n allDimensions else allDimensions in
    (agents <-- collaborativeAgents config models dimensions n 0;
     Val (mkGroup agents models (cfgMultiModel config) (makeChan n)
            (Some (mkContext "" dimensions []))))%res.

(** ** Rendering the reports *)

(** [for i, result := range results { acc += fmt.Sprintf("Agent %d: %s\n\n", i+1, result) }],
    the slice being read from index [i] on. *)
Fixpoint appendAgentLines (i : nat) (results : list string) (acc : string) : string :=
  match results with
  | [] => acc
  | result :: rest =>
      appendAgentLines (S i) rest
        (acc ++ ("Agent " ++ Sprintf_d (Z.of_nat i + 1) ++ ": " ++ result ++ nl ++ nl))
  end.

Definition reportHeader : string := "Synthèse des analyses des agents:" ++ nl ++ nl.

(** The loop of [synthesizeResults]. *)
Fixpoint appendSimpleEntries (i : nat) (results : list string) (acc : string) : string :=
  match results with
  | [] => acc
  | result :: rest =>
      appendSimpleEntries (S i) rest
        (acc ++ (nl ++ "Agent " ++ Sprintf_d (Z.of_nat i + 1) ++ ":" ++ nl ++ result ++ nl))
  end.

Definition synthesizeResults (results : list string) : string :=
  let synthesis := appendSimpleEntries 0 results "" in
  "Synthèse des résultats:" ++ nl ++ synthesis.

(** The loop of [SynthesizeWithModel]. *)
Fixpoint appendAgentSections (i : nat) (results : list string) (acc : string) : string :=
  match results with
  | [] => acc
  | result :: rest =>
      appendAgentSections (S i) rest
        (acc ++ ("=== AGENT " ++ Sprintf_d (Z.of_nat i + 1) ++ " ===" ++ nl ++ result ++ nl ++ nl))
  end.

Definition synthesisPrompt (results : list string) : string :=
  let prompt :=
    "Analyse et synthétise les perspectives suivantes des agents en une réponse cohérente et approfondie:"
      ++ nl ++ nl in
  let prompt := appendAgentSections 0 results prompt in
  prompt ++ ("Ta tâche est de produire une synthèse complète qui:" ++ nl ++
    "1. Identifie les points d'accord et de désaccord entre les agents" ++ nl ++
    "2. Combine les perspectives uniques en une vision cohérente" ++ nl ++
    "3. Présente une conclusion qui intègre les meilleures idées de chaque agent" ++ nl ++
    "4. Offre une réponse finale plus complète que chacune des perspectives individuelles" ++ nl ++ nl ++
    "Synthèse:").

(** ** Prompts of the collaborative phases *)

Definition analysisPrompt (a : Agent) : string :=
  "Analyse profondément cette demande pour en comprendre l'essence, les attentes implicites et explicites, " ++
  "et le niveau de détail approprié pour y répondre de manière optimale: " ++ Prompt a.

Definition explorationPrompt (a : Agent) : string :=
  "En te basant sur cette analyse initiale:" ++ nl ++ nl ++ SharedAnalysis a ++ nl ++ nl ++
  "Explore en profondeur cette dimension spécifique: " ++ DimensionToExplore a ++ nl ++ nl ++
  "Pour la question originale: " ++ Prompt a ++ nl ++ nl ++
  "Analyse cette dimension de manière détaillée et approfondie, en tenant compte des autres aspects " ++
  "mais en te concentrant particulièrement sur cette dimension. " ++
  "Pense étape par étape et développe une analyse nuancée et complète.".

(** The loop of [integrateAnalyses] over [SharedInsights], which reads
    [s.Agents[i].DimensionToExplore] beside insight [i]. *)
Fixpoint appendDimensions (agents : list Agent) (i : nat) (insights : list string)
  (acc : string) : res string :=
  match insights with
  | [] => Val acc
  | insight :: rest =>
      (a <-- index agents i;
       appendDimensions agents (S i) rest
         (acc ++ ("Dimension: " ++ DimensionToExplore a ++ nl ++ insight ++ nl ++ nl)))%res
  end.

Definition integrationPrompt (agents : list Agent) (ctx : CollaborativeContext) : res string :=
  let prompt :=
    "Intègre organiquement ces différentes analyses en une compréhension cohérente et unifiée:"
      ++ nl ++ nl in
  let prompt := prompt ++ ("Compréhension initiale de la demande:" ++ nl ++
                           InitialAnalysis ctx ++ nl ++ nl) in
  (prompt <-- appendDimensions agents 0 (SharedInsights ctx) prompt;
   Val (prompt ++
     ("Ta tâche est de synthétiser ces analyses en une compréhension intégrée qui combine " ++
      "organiquement toutes les dimensions, en évitant de simplement juxtaposer les informations. " ++
      "Identifie les connexions, les patterns et les idées transversales. " ++
      "Forme une analyse unifiée qui représente une réflexion collaborative approfondie.")))%res.

Definition responsePrompt (a : Agent) : string :=
  "En t'appuyant sur cette analyse intégrée et approfondie:" ++ nl ++ nl ++ SharedAnalysis a ++ nl ++ nl ++
  "Formule une réponse directe, claire et complète à la demande originale: " ++ Prompt a ++ nl ++ nl ++
  "La réponse doit être parfaitement adaptée aux besoins implicites et explicites de l'utilisateur, " ++
  "en intégrant harmonieusement les perspectives des différentes dimensions analysées. " ++
  "La réponse doit être cohérente, structurée et offrir un maximum de valeur à l'utilisateur. " ++
  "N'inclus pas de mentions du processus analytique, concentre-toi uniquement sur la réponse à la demande.".

(** Field updates. *)
Definition setSharedAnalysis (text : string) (a : Agent) : Agent :=
  mkAgent (ID a) (Model a) (Prompt a) (Phase a) (CollabContext a) text (DimensionToExplore a).

Definition withAgents (s : SocietyGroup) (agents : list Agent) : SocietyGroup :=
  mkGroup agents (Models s) (MultiModel s) (Results s) (Context s).

Definition withResults (s : SocietyGroup) (results : Chan string) : SocietyGroup :=
  mkGroup (Agents s) (Models s) (MultiModel s) results (Context s).

Definition withContext (s : SocietyGroup) (ctx : CollaborativeContext) : SocietyGroup :=
  mkGroup (Agents s) (Models s) (MultiModel s) (Results s) (Some ctx).

(** [for i := 0; i < n; i++ { results = append(results, <-ch) }]. *)
Fixpoint drain (n : nat) (ch : Chan string) : res (list string * Chan string) :=
  match n with
  | O => Val ([], ch)
  | S n' =>
      (first <-- recv ch;
       others <-- drain n' (snd first);
       Val (fst first :: fst others, snd others))%res
  end.

(** One record of the trace: which capability was asked what, and its answer. *)
Record Call : Type := mkCall {
  callee : ModelId;
  asked : string;
  answered : string + error
}.

(** ** The engine *)

Section Engine.

(** The capabilities: whatever the caller's models hold, and their
    [Process] method. *)
Variable World : Type.
Variable Process : ModelId -> string -> World -> (string + error) * World.

Record St : Type := mkSt {
  world : World;
  trace : list Call
}.

Definition M (A : Type) : Type := St -> res (A * St).

Definition ret {A : Type} (a : A) : M A := fun st => Val (a, st).

Definition bind {A B : Type} (c : M A) (k : A -> M B) : M B :=
  fun st =>
    match c st with
    | Val (a, st') => k a st'
    | Panic f => Panic f
    end.

Definition lift {A : Type} (r : res A) : M A :=
  fun st =>
    match r with
    | Val a => Val (a, st)
    | Panic f => Panic f
    end.

Notation "x <- c ;; k" := (bind c (fun x => k))
  (at level 61, c at next level, right associativity).

(** [m.Process(ctx, prompt)] on an interface value. *)
Definition callProcess (m : AIModel) (prompt : string) : M (string + error) :=
  fun st =>
    match m with
    | None => Panic NilDereference
    | Some id =>
        let answer := Process id prompt (world st) in
        Val (fst answer,
             mkSt (snd answer) (trace st ++ [mkCall id prompt (fst answer)]))
    end.

(** The method [process] of an agent. *)
Definition process (a : Agent) (results : Chan string) : M (option error * Chan string) :=
  r <- callProcess (Model a) (Prompt a);;
  match r with
  | inr err => ret (Some err, results)
  | inl result =>
      results' <- lift (send results result);;
      ret (None, results')
  end.

(** The goroutine launched by [run] for agent [a]. *)
Definition runWorker (a : Agent) (errs : Chan error) (results : Chan string)
  : M (Chan error * Chan string) :=
  r <- process a results;;
  match fst r with
  | Some err =>
      errs' <- lift (send errs err);;
      ret (errs', snd r)
  | None => ret (errs, snd r)
  end.

(** The goroutine launched by [exploreDimensions] for agent [a]. *)
Definition exploreWorker (a : Agent) (errs : Chan error) (results : Chan string)
  : M (Chan error * Chan string) :=
  r <- callProcess (Model a) (explorationPrompt a);;
  match r with
  | inr err =>
      errs' <- lift (send errs err);;
      ret (errs', results)
  | inl result =>
      results' <- lift (send results result);;
      ret (errs, results')
  end.

(** The workers of one fan-out, run to completion in the order [sched]. *)
Fixpoint goroutines (worker : Agent -> Chan error -> Chan string -> M (Chan error * Chan string))
  (agents : list Agent) (sched : list nat) (errs : Chan error) (results : Chan string)
  : M (Chan error * Chan string) :=
  match sched with
  | [] => ret (errs, results)
  | k :: later =>
      match nth_error agents k with
      | Some a =>
          chans <- worker a errs results;;
          goroutines worker agents later (fst chans) (snd chans)
      | None => goroutines worker agents later errs results
      end
  end.

(** The workers of the exploration as its runner sees them: in the order
    [sched] in which they complete, up to the first one that sends an error.
    On that error the runner returns (the loop over [errs] below) without
    waiting for the workers still in flight, whose calls are then no part of
    the state the function returns. *)
Fixpoint exploring (agents : list Agent) (sched : list nat) (errs : Chan error)
  (results : Chan string) : M (Chan error * Chan string) :=
  match sched with
  | [] => ret (errs, results)
  | k :: later =>
      match nth_error agents k with
      | Some a =>
          chans <- exploreWorker a errs results;;
          match buffer (fst chans) with
          | [] => exploring agents later (fst chans) (snd chans)
          | _ :: _ => ret chans
          end
      | None => exploring agents later errs results
      end
  end.

(** [for err := range errs { return err }; return nil]: the error sent
    first, if any, and nil once the channel is closed with nothing in it.  The
    runner returns on the first error without waiting for the other workers.
    [run] is given with the state reached once every worker it launched has
    finished: their calls still take place, and [RunSociety] drops the pool on
    an error.  [exploreDimensions] is given with the state at its return. *)
Definition firstError (errs : Chan error) : option error :=
  match buffer errs with
  | err :: _ => Some err
  | [] => None
  end.

Definition run (sched : list nat) (s : SocietyGroup) : M (option error * SocietyGroup) :=
  let errs := makeChan (length (Agents s)) in
  chans <- goroutines runWorker (Agents s) sched errs (Results s);;
  ret (firstError (fst chans), withResults s (snd chans)).

Definition collectResults (s : SocietyGroup) : res (string * SocietyGroup) :=
  (drained <-- drain (length (Agents s)) (Results s);
   Val (appendAgentLines 0 (fst drained) reportHeader,
        withResults s (snd drained)))%res.

Definition SynthesizeWithModel (results : list string) (model : AIModel)
  : M (string + error) :=
  callProcess model (synthesisPrompt results).

Definition collectResultsWithSynthesisModel (s : SocietyGroup) (synthesisModel : AIModel)
  : M ((string * option error) * SocietyGroup) :=
  drained <- lift (drain (length (Agents s)) (Results s));;
  let results := fst drained in
  let s := withResults s (snd drained) in
  let finalResult := appendAgentLines 0 results reportHeader in
  r <- SynthesizeWithModel results synthesisModel;;
  match r with
  | inr err =>
      ret ((finalResult ++
              (nl ++ "Conclusion consolidée (méthode simple - erreur du modèle de synthèse):" ++ nl ++
               synthesizeResults results ++
               nl ++ nl ++ "Erreur de synthèse: " ++ ErrorText err),
            None), s)
  | inl synthesis =>
      ret ((finalResult ++
              (nl ++ "Conclusion consolidée (via modèle de synthèse):" ++ nl ++ synthesis),
            None), s)
  end.

Definition performInitialAnalysis (s : SocietyGroup) : M (option error * SocietyGroup) :=
  match Agents s with
  | [] => ret (Some (errorsNew "aucun agent disponible pour l'analyse"), s)
  | primaryAgent :: _ =>
      r <- callProcess (Model primaryAgent) (analysisPrompt primaryAgent);;
      match r with
      | inr err => ret (Some err, s)
      | inl initialAnalysis =>
          match Context s with
          | None => lift (Panic NilDereference)
          | Some ctx =>
              let s := withContext s
                         (mkContext initialAnalysis (Dimensions ctx) (SharedInsights ctx)) in
              ret (None, withAgents s (map (setSharedAnalysis initialAnalysis) (Agents s)))
          end
      end
  end.

Definition exploreDimensions (sched : list nat) (s : SocietyGroup)
  : M (option error * SocietyGroup) :=
  let errs := makeChan (length (Agents s)) in
  chans <- exploring (Agents s) sched errs (Results s);;
  let s := withResults s (snd chans) in
  match firstError (fst chans) with
  | Some err => ret (Some err, s)
  | None =>
      drained <- lift (drain (length (Agents s)) (Results s));;
      let insights := fst drained in
      let s := withResults s (snd drained) in
      match Context s with
      | None => lift (Panic NilDereference)
      | Some ctx =>
          ret (None, withContext s
                       (mkContext (InitialAnalysis ctx) (Dimensions ctx) insights))
      end
  end.

Definition integrateAnalyses (s : SocietyGroup) : M (option error * SocietyGroup) :=
  let nothing := errorsNew "aucune analyse à intégrer" in
  match Agents s with
  | [] => ret (Some nothing, s)
  | primaryAgent :: _ =>
      match Context s with
      | None => lift (Panic NilDereference)
      | Some ctx =>
          match SharedInsights ctx with
          | [] => ret (Some nothing, s)
          | _ :: _ =>
              prompt <- lift (integrationPrompt (Agents s) ctx);;
              r <- callProcess (Model primaryAgent) prompt;;
              match r with
              | inr err => ret (Some err, s)
              | inl integratedAnalysis =>
                  ret (None,
                       withAgents s (map (setSharedAnalysis integratedAnalysis) (Agents s)))
              end
          end
      end
  end.

Definition generateFinalResponse (s : SocietyGroup) : M (string * option error) :=
  match Agents s with
  | [] => ret ("", Some (errorsNew "aucun agent disponible pour générer la réponse"))
  | primaryAgent :: _ =>
      r <- callProcess (Model primaryAgent) (responsePrompt primaryAgent);;
      match r with
      | inr err => ret ("", Some err)
      | inl finalResponse => ret (finalResponse, None)
      end
  end.

Definition RunSociety (sched : list nat) (config : Config) (models : list AIModel)
  : M (string * option error) :=
  society <- lift (createSociety config models);;
  r <- run sched society;;
  match fst r with
  | Some err => ret ("", Some err)
  | None =>
      collected <- lift (collectResults (snd r));;
      ret (fst collected, None)
  end.

Definition RunSocietyWithSynthesis (sched : list nat) (config : Config)
  (models : list AIModel) (synthModel : AIModel) : M (string * option error) :=
  society <- lift (createSociety config models);;
  r <- run sched society;;
  match fst r with
  | Some err => ret ("", Some err)
  | None =>
      collected <- collectResultsWithSynthesisModel (snd r) synthModel;;
      match snd (fst collected) with
      | Some err => ret ("", Some err)
      | None => ret (fst (fst collected), None)
      end
  end.

Definition RunSocietyCollaborative (sched : list nat) (config : Config)
  (models : list AIModel) : M (string * option error) :=
  society <- lift (createCollaborativeSociety config models);;
  r1 <- performInitialAnalysis society;;
  match fst r1 with
  | Some err => ret ("", Some err)
  | None =>
      r2 <- exploreDimensions sched (snd r1);;
      match fst r2 with
      | Some err => ret ("", Some err)
      | None =>
          r3 <- integrateAnalyses (snd r2);;
          match fst r3 with
          | Some err => ret ("", Some err)
          | None =>
              r4 <- generateFinalResponse (snd r3);;
              match snd r4 with
              | Some err => ret ("", Some err)
              | None => ret (fst r4, None)
              end
          end
      end
  end.

Definition Society (sched : list nat) (prompt : string) (agentCount : Z)
  (models : list AIModel) (multiModel : bool) : M (string * option error) :=
  if (agentCount <=? 0)%Z then ret ("", Some ErrInvalidAgentCount)
  else if (length models =? 0)%nat then ret ("", Some ErrNoModelsSpecified)
  else RunSociety sched (mkConfig prompt agentCount multiModel false) models.

Definition SocietyWithSynthesis (sched : list nat) (prompt : string) (agentCount : Z)
  (models : list AIModel) (multiModel : bool) (synthModel : AIModel)
  : M (string * option error) :=
  if (agentCount <=? 0)%Z then ret ("", Some ErrInvalidAgentCount)
  else if (length models =? 0)%nat then ret ("", Some ErrNoModelsSpecified)
  else
    match synthModel with
    | None => ret ("", Some (errorsNew "le modèle de synthèse ne peut pas être nil"))
    | Some _ =>
        RunSocietyWithSynthesis sched (mkConfig prompt agentCount multiModel false)
          models synthModel
    end.

Definition SocietyCollaborative (sched : list nat) (prompt : string) (agentCount : Z)
  (models : list AIModel) (multiModel : bool) : M (string * option error) :=
  if (agentCount <=? 0)%Z then ret ("", Some ErrInvalidAgentCount)
  else if (length models =? 0)%nat then ret ("", Some ErrNoModelsSpecified)
  else RunSocietyCollaborative sched (mkConfig prompt agentCount multiModel true) models.

(** What the calls of a fan-out amount to, its workers completing in the
    order [workers] and asking [promptOf] of their own model: the calls made
    and the world left. *)
Fixpoint answers (promptOf : Agent -> string) (workers : list Agent) (w : World)
  : list Call * World :=
  match workers with
  | [] => ([], w)
  | a :: later =>
      match Model a with
      | None => ([], w)
      | Some m =>
          let answer := Process m (promptOf a) w in
          let rest := answers promptOf later (snd answer) in
          (mkCall m (promptOf a) (fst answer) :: fst rest, snd rest)
      end
  end.

(** The same for a fan-out whose runner returns on the first failure: the
    calls completed by then. *)
Fixpoint answersUntilError (promptOf : Agent -> string) (workers : list Agent) (w : World)
  : list Call * World :=
  match workers with
  | [] => ([], w)
  | a :: later =>
      match Model a with
      | None => ([], w)
      | Some m =>
          let answer := Process m (promptOf a) w in
          match fst answer with
          | inr _ => ([mkCall m (promptOf a) (fst answer)], snd answer)
          | inl _ =>
              let rest := answersUntilError promptOf later (snd answer) in
              (mkCall m (promptOf a) (fst answer) :: fst rest, snd rest)
          end
      end
  end.

End Engine.

Arguments mkSt {World} _ _.
Arguments world {World} _.
Arguments trace {World} _.
Arguments ret {World A} _ _.
Arguments bind {World A B} _ _ _.
Arguments lift {World A} _ _.
Arguments callProcess {World} Process _ _ _.
Arguments process {World} Process _ _ _.
Arguments runWorker {World} Process _ _ _ _.
Arguments exploreWorker {World} Process _ _ _ _.
Arguments goroutines {World} _ _ _ _ _ _.
Arguments exploring {World} Process _ _ _ _ _.
Arguments run {World} Process _ _ _.
Arguments SynthesizeWithModel {World} Process _ _ _.
Arguments collectResultsWithSynthesisModel {World} Process _ _ _.
Arguments performInitialAnalysis {World} Process _ _.
Arguments exploreDimensions {World} Process _ _ _.
Arguments integrateAnalyses {World} Process _ _.
Arguments generateFinalResponse {World} Process _ _.
Arguments RunSociety {World} Process _ _ _ _.
Arguments RunSocietyWithSynthesis {World} Process _ _ _ _ _.
Arguments RunSocietyCollaborative {World} Process _ _ _ _.
Arguments Society {World} Process _ _ _ _ _ _.
Arguments SocietyWithSynthesis {World} Process _ _ _ _ _ _ _.
Arguments SocietyCollaborative {World} Process _ _ _ _ _ _.
Arguments answers {World} Process _ _ _.
Arguments answersUntilError {World} Process _ _ _.

(** ** Two fake capabilities used in the examples *)

(** Capability [m] answers ["m<m>:" ++ prompt]; capability 0 fails. *)
Definition echoProcess (m : ModelId) (prompt : string) (w : unit)
  : (string + error) * unit :=
  match m with
  | O => (inr (errorsNew "boom"), w)
  | _ => (inl ("m" ++ Sprintf_d (Z.of_nat m) ++ ":" ++ prompt), w)
  end.

Definition startState : St unit := mkSt tt [].

(** What capabilities 1 and 2 answer to agents 0 and 1 of a standard pool on
    the prompt ["X"]. *)
Definition twoAnswers (i : nat) : string :=
  match i with
  | O => "m1:Analyse cette demande de manière factuelle et concise: X"
  | _ => "m2:Considère les implications et le contexte plus large de cette demande: X"
  end.

(** A capability that always answers: ["ok:" ++ prompt]. *)
Definition okProcess (m : ModelId) (prompt : string) (w : unit)
  : (string + error) * unit :=
  (inl ("ok:" ++ prompt), w).

(** The answer and the final state of a collaborative run of two agents on
    capabilities that always answer, agent 1 completing first. *)
Definition exampleAnswer : string :=
  Eval vm_compute in
    match SocietyCollaborative okProcess [1; 0] "X" 2 [Some 1; Some 2] true startState with
    | Val ((text, _), _) => text
    | Panic _ => ""
    end.

Definition exampleFinalState : St unit :=
  Eval vm_compute in
    match SocietyCollaborative okProcess [1; 0] "X" 2 [Some 1; Some 2] true startState with
    | Val (_, st) => st
    | Panic _ => startState
    end.



(** ** Vocabulary of the statements *)

(** The answers received and the failures met among some calls, in order. *)
Definition successes (calls : list Call) : list string :=
  flat_map (fun c => match answered c with inl text => [text] | inr _ => [] end) calls.

Definition failures (calls : list Call) : list error :=
  flat_map (fun c => match answered c with inl _ => [] | inr err => [err] end) calls.

(** The agents in the order in which a schedule completes them. *)
Definition scheduled (agents : list Agent) (sched : list nat) : list Agent :=
  flat_map (fun k => match nth_error agents k with Some a => [a] | None => [] end) sched.

(** A schedule of a pool of [n] agents completes each of them once. *)
Definition is_schedule (n : nat) (sched : list nat) : bool :=
  (length sched =? n)%nat &&
  forallb (fun i => existsb (Nat.eqb i) sched) (seq 0 n).

(** The capability that the assignment rule gives to agent [i]. *)
Definition modelOf (multiModel : bool) (models : list AIModel) (i : nat) : AIModel :=
  if multiModel && (1 <? length models)%nat
  then nth (i mod length models) models None
  else nth 0 models None.

(** The dimension labels kept for a pool of [n] agents. *)
Definition dimensionsFor (n : nat) : list string :=
  if (n <? length allDimensions)%nat then firstn n allDimensions else allDimensions.

(** A report as a list of labelled entries. *)
Definition labelled (from : nat) (results : list string) : list (nat * string) :=
  combine (seq from (length results)) results.

Definition agentLine (entry : nat * string) : string :=
  "Agent " ++ Sprintf_d (Z.of_nat (fst entry)) ++ ": " ++ snd entry ++ nl ++ nl.

Definition simpleEntry (entry : nat * string) : string :=
  nl ++ "Agent " ++ Sprintf_d (Z.of_nat (fst entry)) ++ ":" ++ nl ++ snd entry ++ nl.

Definition joined (parts : list string) : string :=
  fold_right String.append "" parts.

(** How many of the calls went to capability [m]. *)
Definition callsTo (m : ModelId) (calls : list Call) : nat :=
  length (filter (fun c => Nat.eqb (callee c) m) calls).

(** The call that a worker of model [m] makes in state [st]. *)
Definition one_call {World : Type}
  (Process : ModelId -> string -> World -> (string + error) * World)
  (promptOf : Agent -> string) (a : Agent) (m : ModelId) (st : St World) : Call :=
  mkCall m (promptOf a) (fst (Process m (promptOf a) (world st))).

(** A recorded call holds what [Process] answered in some state of the world. *)
Definition answered_by {World : Type}
  (Process : ModelId -> string -> World -> (string + error) * World) (c : Call) : Prop :=
  exists w, answered c = fst (Process (callee c) (asked c) w).

Definition AIModel_eq_dec (a b : AIModel) : {a = b} + {a <> b}.
Proof. decide equality. apply Nat.eq_dec. Defined.

(** The agents that pool construction builds. *)
Definition standardAgent (config : Config) (models : list AIModel) (i : nat) : Agent :=
  mkAgent (Z.of_nat i) (modelOf (cfgMultiModel config) models i)
    (nth (i mod 5) perspectives "" ++ cfgPrompt config) 0 "" "" "".

Definition collaborativeAgent (config : Config) (models : list AIModel) (i : nat) : Agent :=
  let dimensions := dimensionsFor (Z.to_nat (AgentCount config)) in
  mkAgent (Z.of_nat i) (modelOf (cfgMultiModel config) models i)
    (cfgPrompt config) 0 "" "" (nth (i mod length dimensions) dimensions "").

(** ** The example capability of the repository: a Gemini client

    [GeminiModel] implements [AIModel] over HTTP.  The network is not part of
    the program: one round trip (building the request, sending it, reading the
    status and decoding the body) is the section variable [exchange], which
    answers one of the four things the code tells apart.  The request carries
    the URL and the conversation (the generation settings are constants).
    The calls to [time.Sleep] are kept as the list of the durations asked
    for, the product [RetryDelay * attempt] being taken in [int64] as Go takes
    it; what is printed between two attempts is left out. *)

Module Gemini.

Record Message : Type := mkMessage {
  Role : string;
  Content : string
}.

(** The model; its HTTP client belongs to the network. *)
Record GeminiModel : Type := mkGeminiModel {
  ModelName : string;
  APIKey : string;
  BaseURL : string;
  Conversation : list Message;
  MaxRetries : Z;
  RetryDelay : Z
}.

(** Durations are nanoseconds in an [int64]. *)
Definition Second : Z := 1000000000.

(** The value that 64-bit signed arithmetic keeps of [d]. *)
Definition wrapDuration (d : Z) : Z := ((d + 2 ^ 63) mod 2 ^ 64 - 2 ^ 63)%Z.

Definition NewGeminiModel (modelName apiKey : string) : GeminiModel :=
  mkGeminiModel modelName apiKey
    "https://generativelanguage.googleapis.com/v1beta/models" [] 3 (2 * Second).

Definition Name (m : GeminiModel) : string := ModelName m.

(** The decoded body of an answer. *)
Record Candidate : Type := mkCandidate {
  Parts : list string;
  CandidateRole : string;
  FinishReason : string
}.

Record ApiResult : Type := mkApiResult {
  Candidates : list Candidate;
  BlockReason : string
}.

(** What one round trip comes to. *)
Inductive Exchange : Type :=
| RequestFailed (err : error)
| BadStatus (status body : string)
| DecodeFailed (err : error)
| Decoded (result : ApiResult).

(** [for _, part := range parts { responseText += part.Text }]. *)
Fixpoint appendParts (parts : list string) (responseText : string) : string :=
  match parts with
  | [] => responseText
  | part :: rest => appendParts rest (responseText ++ part)
  end.

(** What the body of the loop makes of a round trip: the text to return, or
    the error kept in [lastError] before the next attempt. *)
Definition attemptOutcome (x : Exchange) : string + error :=
  match x with
  | RequestFailed err => inr err
  | BadStatus status body => inr (errorsNew ("erreur API: " ++ status ++ " - " ++ body))
  | DecodeFailed err => inr err
  | Decoded result =>
      match Candidates result with
      | [] => inr (errorsNew "réponse vide reçue de l'API")
      | first :: _ =>
          if String.eqb (BlockReason result) ""
          then inl (appendParts (Parts first) "")
          else inr (errorsNew ("requête bloquée: " ++ BlockReason result))
      end
  end.

(** [fmt.Sprintf("%v", err)] on an error that may be nil. *)
Definition Sprintf_v (err : option error) : string :=
  match err with
  | Some e => ErrorText e
  | None => "<nil>"
  end.

Definition fullURL (m : GeminiModel) : string :=
  BaseURL m ++ "/" ++ ModelName m ++ ":generateContent?key=" ++ APIKey m.

Definition appendMessage (m : GeminiModel) (role content : string) : GeminiModel :=
  mkGeminiModel (ModelName m) (APIKey m) (BaseURL m)
    (Conversation m ++ [mkMessage role content]) (MaxRetries m) (RetryDelay m).

Section Client.

Variable Net : Type.
Variable exchange : string -> list Message -> Net -> Exchange * Net.

(** What a call of [Process] leaves: the value returned, the model, the
    network, the round trips made and the durations slept, in order. *)
Record Run : Type := mkRun {
  returned : string + error;
  model : GeminiModel;
  net : Net;
  exchanges : list Exchange;
  sleeps : list Z
}.

(** The loop [for attempt := 0; attempt <= m.MaxRetries; attempt++], with
    [remaining] iterations left. *)
Fixpoint retryLoop (remaining : nat) (attempt : Z) (lastError : option error)
  (m : GeminiModel) (n : Net) (done : list Exchange) (slept : list Z) : Run :=
  match remaining with
  | O =>
      mkRun (inr (errorsNew ("échec après " ++ Sprintf_d (MaxRetries m) ++
                             " tentatives: " ++ Sprintf_v lastError)))
        m n done slept
  | S remaining' =>
      let slept := if (0 <? attempt)%Z
                   then (slept ++ [wrapDuration (RetryDelay m * attempt)])%list
                   else slept in
      let answer := exchange (fullURL m) (Conversation m) n in
      match attemptOutcome (fst answer) with
      | inr err =>
          retryLoop remaining' (attempt + 1)%Z (Some err) m (snd answer)
            (done ++ [fst answer]) slept
      | inl responseText =>
          mkRun (inl responseText) (appendMessage m "model" responseText) (snd answer)
            (done ++ [fst answer]) slept
      end
  end.

Definition Process (m : GeminiModel) (prompt : string) (n : Net) : Run :=
  let m := appendMessage m "user" prompt in
  retryLoop (Z.to_nat (MaxRetries m + 1)) 0 None m n [] [].

End Client.

Arguments mkRun {Net} _ _ _ _ _.
Arguments returned {Net} _.
Arguments model {Net} _.
Arguments net {Net} _.
Arguments exchanges {Net} _.
Arguments sleeps {Net} _.
Arguments retryLoop {Net} exchange _ _ _ _ _ _ _.
Arguments Process {Net} exchange _ _ _.

(** The error kept in [lastError] after some round trips. *)
Definition lastFailure (start : option error) (done : list Exchange) : option error :=
  fold_left (fun kept x => match attemptOutcome x with
                           | inr err => Some err
                           | inl _ => kept
                           end) done start.

Definition failed (x : Exchange) : Prop := exists err, attemptOutcome x = inr err.

(** The durations slept before [count] attempts numbered from [attempt] on. *)
Fixpoint backoff (delay attempt : Z) (count : nat) : list Z :=
  match count with
  | O => []
  | S count' =>
      ((if (0 <? attempt)%Z then [wrapDuration (delay * attempt)] else [])
       ++ backoff delay (attempt + 1)%Z count')%list
  end.

(** A network that answers 503 until the request number [ready], then a
    candidate in two parts. *)
Definition flakyExchange (ready : nat) (url : string) (sent : list Message) (count : nat)
  : Exchange * nat :=
  (if (count <? ready)%nat
   then BadStatus "503 Service Unavailable" "busy"
   else Decoded (mkApiResult [mkCandidate ["Bon"; "jour"] "model" "STOP"] ""),
   S count).

End Gemini.

(** * Pool construction *)

Lemma index_nth {A : Type} (l : list A) (i : nat) (d : A) :
  i < length l -> index l i = Val (nth i l d).
Proof.
  intros Hi. unfold index. now rewrite (nth_error_nth' l d Hi).
Qed.

Lemma assignModel_modelOf (multiModel : bool) (models : list AIModel) (i : nat) :
  models <> [] -> assignModel multiModel models i = Val (modelOf multiModel models i).
Proof.
  intros Hne.
  assert (Hlen : 0 < length models) by (destruct models; simpl; [congruence | lia]).
  unfold assignModel, modelOf.
  destruct (multiModel && (1 <? length models)%nat).
  - apply index_nth. apply Nat.mod_upper_bound. lia.
  - now apply index_nth.
Qed.

Lemma modelOf_In (multiModel : bool) (models : list AIModel) (i : nat) :
  models <> [] -> In (modelOf multiModel models i) models.
Proof.
  intros Hne.
  assert (Hlen : 0 < length models) by (destruct models; simpl; [congruence | lia]).
  unfold modelOf.
  destruct (multiModel && (1 <? length models)%nat); apply nth_In; trivial.
  apply Nat.mod_upper_bound. lia.
Qed.

Lemma generatePromptForAgent_of_nat (basePrompt : string) (i : nat) :
  generatePromptForAgent basePrompt (Z.of_nat i)
  = Val (nth (i mod 5) perspectives "" ++ basePrompt).
Proof.
  unfold generatePromptForAgent.
  change (Z.of_nat (length perspectives)) with (Z.of_nat 5).
  rewrite Z.rem_mod_nonneg by lia.
  rewrite <- Nat2Z.inj_mod.
  destruct (Z.ltb_spec (Z.of_nat (i mod 5)) 0) as [Hneg | _]; [lia |].
  rewrite Nat2Z.id.
  rewrite (index_nth perspectives (i mod 5) "").
  - reflexivity.
  - change (length perspectives) with 5. apply Nat.mod_upper_bound. lia.
Qed.

Lemma societyAgents_spec (config : Config) (models : list AIModel) :
  models <> [] ->
  forall n i,
    societyAgents config models n i = Val (map (standardAgent config models) (seq i n)).
Proof.
  intros Hne n. induction n as [| n IH]; intros i; simpl.
  - reflexivity.
  - rewrite (assignModel_modelOf _ _ _ Hne). simpl.
    rewrite generatePromptForAgent_of_nat. simpl.
    rewrite IH. reflexivity.
Qed.

Lemma createSociety_spec (config : Config) (models : list AIModel) :
  (0 <= AgentCount config)%Z -> models <> [] ->
  createSociety config models
  = Val (mkGroup (map (standardAgent config models) (seq 0 (Z.to_nat (AgentCount config))))
           models (cfgMultiModel config) (makeChan (Z.to_nat (AgentCount config))) None).
Proof.
  intros Hn Hne. unfold createSociety.
  destruct (Z.ltb_spec (AgentCount config) 0) as [Hneg | _]; [lia |].
  rewrite (societyAgents_spec _ _ Hne). reflexivity.
Qed.

Lemma dimensionsFor_length (n : nat) :
  0 < n -> 0 < length (dimensionsFor n) <= n.
Proof.
  intros Hn. unfold dimensionsFor.
  destruct (Nat.ltb_spec n (length allDimensions)) as [Hlt | Hge].
  - rewrite length_firstn. lia.
  - change (length allDimensions) with 5 in *. lia.
Qed.

Lemma collaborativeAgents_spec (config : Config) (models : list AIModel) :
  models <> [] -> (0 < AgentCount config)%Z ->
  forall n i,
    collaborativeAgents config models (dimensionsFor (Z.to_nat (AgentCount config))) n i
    = Val (map (collaborativeAgent config models) (seq i n)).
Proof.
  intros Hne Hpos n.
  pose proof (dimensionsFor_length (Z.to_nat (AgentCount config)) ltac:(lia)) as Hdim.
  induction n as [| n IH]; intros i; simpl.
  - reflexivity.
  - rewrite (assignModel_modelOf _ _ _ Hne). simpl.
    destruct (length (dimensionsFor (Z.to_nat (AgentCount config)))) as [| d] eqn:Hd; [lia |].
    rewrite (index_nth _ _ "") by (rewrite Hd; apply Nat.mod_upper_bound; lia).
    simpl. rewrite IH. unfold collaborativeAgent at 2. rewrite Hd. reflexivity.
Qed.

Lemma createCollaborativeSociety_spec (config : Config) (models : list AIModel) :
  (0 < AgentCount config)%Z -> models <> [] ->
  createCollaborativeSociety config models
  = Val (mkGroup (map (collaborativeAgent config models)
                    (seq 0 (Z.to_nat (AgentCount config))))
           models (cfgMultiModel config) (makeChan (Z.to_nat (AgentCount config)))
           (Some (mkContext "" (dimensionsFor (Z.to_nat (AgentCount config))) []))).
Proof.
  intros Hn Hne. unfold createCollaborativeSociety.
  destruct (Z.ltb_spec (AgentCount config) 0) as [Hneg | _]; [lia |].
  assert (Hdims : (if (AgentCount config <? Z.of_nat (length allDimensions))%Z
                   then firstn (Z.to_nat (AgentCount config)) allDimensions
                   else allDimensions) = dimensionsFor (Z.to_nat (AgentCount config))).
  { unfold dimensionsFor.
    destruct (Z.ltb_spec (AgentCount config) (Z.of_nat (length allDimensions)));
      destruct (Nat.ltb_spec (Z.to_nat (AgentCount config)) (length allDimensions));
      trivial; lia. }
  rewrite Hdims.
  rewrite (collaborativeAgents_spec _ _ Hne Hn). reflexivity.
Qed.

(** * Schedules *)

Lemma is_schedule_length (n : nat) (sched : list nat) :
  is_schedule n sched = true -> length sched = n.
Proof.
  unfold is_schedule. intros H. apply andb_prop in H as [H _].
  now apply Nat.eqb_eq.
Qed.

Lemma is_schedule_Permutation (n : nat) (sched : list nat) :
  is_schedule n sched = true -> Permutation (seq 0 n) sched.
Proof.
  intros H. pose proof (is_schedule_length _ _ H) as Hlen.
  unfold is_schedule in H. apply andb_prop in H as [_ H].
  apply NoDup_Permutation_bis.
  - apply seq_NoDup.
  - rewrite length_seq. lia.
  - intros i Hi. rewrite forallb_forall in H. specialize (H i Hi).
    apply existsb_exists in H as (k & Hk & Heq).
    apply Nat.eqb_eq in Heq. now subst.
Qed.

Lemma is_schedule_bound (n : nat) (sched : list nat) :
  is_schedule n sched = true -> forall k, In k sched -> k < n.
Proof.
  intros H k Hk.
  apply (Permutation_in k (Permutation_sym (is_schedule_Permutation _ _ H))) in Hk.
  apply in_seq in Hk. lia.
Qed.

Lemma nth_error_pool {A : Type} (f : nat -> A) (n k : nat) :
  k < n -> nth_error (map f (seq 0 n)) k = Some (f k).
Proof.
  intros Hk. rewrite nth_error_map, nth_error_seq.
  destruct (Nat.ltb_spec k n); [reflexivity | lia].
Qed.

Lemma scheduled_pool (f : nat -> Agent) (n : nat) (sched : list nat) :
  (forall k, In k sched -> k < n) ->
  scheduled (map f (seq 0 n)) sched = map f sched.
Proof.
  unfold scheduled. induction sched as [| k later IH]; intros Hb; simpl.
  - reflexivity.
  - rewrite nth_error_pool by (apply Hb; now left).
    simpl. f_equal. apply IH. intros j Hj. apply Hb. now right.
Qed.

(** * Channels *)

Lemma drain_all (cap : nat) (waiting rest : list string) :
  drain (length waiting) (mkChan cap (waiting ++ rest)) = Val (waiting, mkChan cap rest).
Proof.
  induction waiting as [| v waiting IH]; simpl.
  - reflexivity.
  - unfold recv. simpl. rewrite IH. reflexivity.
Qed.

Lemma successes_app (xs ys : list Call) :
  successes (xs ++ ys) = (successes xs ++ successes ys)%list.
Proof. unfold successes. apply flat_map_app. Qed.

Lemma failures_app (xs ys : list Call) :
  failures (xs ++ ys) = (failures xs ++ failures ys)%list.
Proof. unfold failures. apply flat_map_app. Qed.

Lemma successes_cons (c : Call) (calls : list Call) :
  successes (c :: calls) = (successes [c] ++ successes calls)%list.
Proof. apply (successes_app [c]). Qed.

Lemma failures_cons (c : Call) (calls : list Call) :
  failures (c :: calls) = (failures [c] ++ failures calls)%list.
Proof. apply (failures_app [c]). Qed.

Lemma outcomes_length (calls : list Call) :
  length (successes calls) + length (failures calls) = length calls.
Proof.
  induction calls as [| c calls IH]; simpl; [reflexivity |].
  destruct (answered c); simpl; lia.
Qed.

Lemma all_succeeded (calls : list Call) :
  failures calls = [] -> length (successes calls) = length calls.
Proof.
  intros H. pose proof (outcomes_length calls) as Hlen.
  rewrite H in Hlen. simpl in Hlen. lia.
Qed.

(** * The fan-out *)

Section FanOut.

Context {World : Type}.
Variable Process : ModelId -> string -> World -> (string + error) * World.

Lemma runWorker_step (a : Agent) (errs : Chan error) (results : Chan string)
  (st : St World) (m : ModelId) :
  Model a = Some m ->
  length (buffer errs) < capacity errs ->
  length (buffer results) < capacity results ->
  runWorker Process a errs results st
  = Val ((mkChan (capacity errs) (buffer errs ++ failures [one_call Process Prompt a m st]),
          mkChan (capacity results) (buffer results ++ successes [one_call Process Prompt a m st])),
         mkSt (snd (Process m (Prompt a) (world st)))
           (trace st ++ [one_call Process Prompt a m st])).
Proof.
  intros Hm He Hr.
  apply Nat.ltb_lt in He. apply Nat.ltb_lt in Hr.
  unfold runWorker, process, bind, callProcess, lift, send, ret, one_call,
    failures, successes.
  rewrite Hm. simpl.
  destruct (fst (Process m (Prompt a) (world st))) as [text | err]; simpl.
  - rewrite Hr. simpl. rewrite app_nil_r. destruct errs; reflexivity.
  - rewrite He. simpl. rewrite app_nil_r. destruct results; reflexivity.
Qed.

Lemma exploreWorker_step (a : Agent) (errs : Chan error) (results : Chan string)
  (st : St World) (m : ModelId) :
  Model a = Some m ->
  length (buffer errs) < capacity errs ->
  length (buffer results) < capacity results ->
  exploreWorker Process a errs results st
  = Val ((mkChan (capacity errs)
            (buffer errs ++ failures [one_call Process explorationPrompt a m st]),
          mkChan (capacity results)
            (buffer results ++ successes [one_call Process explorationPrompt a m st])),
         mkSt (snd (Process m (explorationPrompt a) (world st)))
           (trace st ++ [one_call Process explorationPrompt a m st])).
Proof.
  intros Hm He Hr.
  apply Nat.ltb_lt in He. apply Nat.ltb_lt in Hr.
  unfold exploreWorker, bind, callProcess, lift, send, ret, one_call,
    failures, successes.
  rewrite Hm. simpl.
  destruct (fst (Process m (explorationPrompt a) (world st))) as [text | err]; simpl.
  - rewrite Hr. simpl. rewrite app_nil_r. destruct errs; reflexivity.
  - rewrite He. simpl. rewrite app_nil_r. destruct results; reflexivity.
Qed.

Variable worker : Agent -> Chan error -> Chan string -> M World (Chan error * Chan string).
Variable promptOf : Agent -> string.

Hypothesis worker_step :
  forall a errs results st m,
    Model a = Some m ->
    length (buffer errs) < capacity errs ->
    length (buffer results) < capacity results ->
    worker a errs results st
    = Val ((mkChan (capacity errs) (buffer errs ++ failures [one_call Process promptOf a m st]),
            mkChan (capacity results) (buffer results ++ successes [one_call Process promptOf a m st])),
           mkSt (snd (Process m (promptOf a) (world st)))
             (trace st ++ [one_call Process promptOf a m st])).

(** With room in both channels for every worker, the fan-out makes the
    calls of [answers], sends the failures to [errs] and the answers to
    [results], each in completion order, and nothing blocks. *)
Lemma goroutines_spec (agents : list Agent) :
  forall (sched : list nat) (errs : Chan error) (results : Chan string) (st : St World),
    Forall (fun a => Model a <> None) (scheduled agents sched) ->
    length (buffer errs) + length sched <= capacity errs ->
    length (buffer results) + length sched <= capacity results ->
    goroutines worker agents sched errs results st
    = let outcome := answers Process promptOf (scheduled agents sched) (world st) in
      Val ((mkChan (capacity errs) (buffer errs ++ failures (fst outcome)),
            mkChan (capacity results) (buffer results ++ successes (fst outcome))),
           mkSt (snd outcome) (trace st ++ fst outcome)).
Proof.
  induction sched as [| k later IH]; intros errs results st Hmodels He Hr.
  - simpl. unfold ret. rewrite !app_nil_r. destruct errs, results, st; reflexivity.
  - cbn [goroutines].
    assert (Hsch : scheduled agents (k :: later)
                   = (match nth_error agents k with Some a => [a] | None => [] end
                      ++ scheduled agents later)%list) by reflexivity.
    rewrite Hsch in *. cbn [length] in He, Hr.
    destruct (nth_error agents k) as [a |] eqn:Hk; cbn [app] in *.
    + inversion Hmodels as [| ? ? Ha Hlater]; subst.
      destruct (Model a) as [m |] eqn:Hm; [| congruence].
      unfold bind. rewrite (worker_step a errs results st m Hm) by lia.
      cbn [fst snd].
      assert (Hf : length (failures [one_call Process promptOf a m st]) <= 1)
        by (unfold failures; simpl; destruct (fst _); simpl; lia).
      assert (Hs : length (successes [one_call Process promptOf a m st]) <= 1)
        by (unfold successes; simpl; destruct (fst _); simpl; lia).
      rewrite IH; trivial; cbn [capacity buffer world trace];
        [| rewrite length_app; lia | rewrite length_app; lia].
      cbn [answers]. rewrite Hm. cbn [fst snd]. unfold one_call.
      set (c := mkCall m (promptOf a) (fst (Process m (promptOf a) (world st)))).
      match goal with
      | |- context [failures (c :: fst ?rest)] =>
          rewrite (failures_cons c (fst rest)), (successes_cons c (fst rest))
      end.
      rewrite <- !app_assoc. reflexivity.
    + apply IH; trivial; lia.
Qed.

Lemma answers_length (workers : list Agent) (w : World) :
  Forall (fun a => Model a <> None) workers ->
  length (fst (answers Process promptOf workers w)) = length workers.
Proof.
  revert w. induction workers as [| a later IH]; intros w Hm; simpl.
  - reflexivity.
  - inversion Hm as [| ? ? Ha Hlater]; subst.
    destruct (Model a); [| congruence]. simpl. now rewrite IH.
Qed.

Lemma answers_genuine (workers : list Agent) (w : World) :
  Forall (answered_by Process) (fst (answers Process promptOf workers w)).
Proof.
  revert w. induction workers as [| a later IH]; intros w; simpl.
  - constructor.
  - destruct (Model a) as [m |]; simpl; [| constructor].
    constructor; [now exists w | apply IH].
Qed.

Lemma answers_callee (workers : list Agent) (w : World) :
  Forall (fun a => Model a <> None) workers ->
  map (fun c => Some (callee c)) (fst (answers Process promptOf workers w))
  = map Model workers.
Proof.
  revert w. induction workers as [| a later IH]; intros w Hm; simpl.
  - reflexivity.
  - inversion Hm as [| ? ? Ha Hlater]; subst.
    destruct (Model a); [| congruence]. simpl. now rewrite IH.
Qed.

(** The exploration, stopped at the first failure. *)
Lemma exploring_spec (agents : list Agent) :
  forall (sched : list nat) (errs : Chan error) (results : Chan string) (st : St World),
    buffer errs = [] ->
    Forall (fun a => Model a <> None) (scheduled agents sched) ->
    length sched <= capacity errs ->
    length (buffer results) + length sched <= capacity results ->
    exploring Process agents sched errs results st
    = let outcome := answersUntilError Process explorationPrompt
                       (scheduled agents sched) (world st) in
      Val ((mkChan (capacity errs) (failures (fst outcome)),
            mkChan (capacity results) (buffer results ++ successes (fst outcome))),
           mkSt (snd outcome) (trace st ++ fst outcome)).
Proof.
  induction sched as [| k later IH]; intros errs results st Hempty Hmodels He Hr.
  - simpl. unfold ret. rewrite !app_nil_r.
    destruct errs as [cap sent], results, st. simpl in Hempty. now subst sent.
  - cbn [exploring].
    assert (Hsch : scheduled agents (k :: later)
                   = (match nth_error agents k with Some a => [a] | None => [] end
                      ++ scheduled agents later)%list) by reflexivity.
    rewrite Hsch in *. cbn [length] in He, Hr.
    destruct (nth_error agents k) as [a |] eqn:Hk; cbn [app] in *.
    + inversion Hmodels as [| ? ? Ha Hlater]; subst.
      destruct (Model a) as [m |] eqn:Hm; [| congruence].
      unfold bind.
      rewrite (exploreWorker_step a errs results st m Hm)
        by (rewrite ?Hempty; simpl; lia).
      cbn [fst snd buffer]. rewrite Hempty. cbn [app].
      cbn [answersUntilError]. rewrite Hm. cbv zeta. unfold one_call.
      destruct (fst (Process m (explorationPrompt a) (world st))) as [text | err] eqn:Hans.
      * change (failures [mkCall m (explorationPrompt a) (inl text)]) with (@nil error).
        change (successes [mkCall m (explorationPrompt a) (inl text)]) with [text].
        cbn [buffer fst snd].
        rewrite IH; trivial; cbn [capacity buffer world trace];
          [| lia | rewrite length_app; simpl; lia].
        cbn [fst snd].
        rewrite (failures_cons (mkCall m (explorationPrompt a) (inl text))),
          (successes_cons (mkCall m (explorationPrompt a) (inl text))).
        change (failures [mkCall m (explorationPrompt a) (inl text)]) with (@nil error).
        change (successes [mkCall m (explorationPrompt a) (inl text)]) with [text].
        cbn [app]. rewrite <- !app_assoc. reflexivity.
      * change (failures [mkCall m (explorationPrompt a) (inr err)]) with [err].
        change (successes [mkCall m (explorationPrompt a) (inr err)]) with (@nil string).
        cbn [buffer fst snd]. unfold ret. reflexivity.
    + apply IH; trivial; lia.
Qed.

Lemma until_no_failure (workers : list Agent) :
  forall w,
    failures (fst (answersUntilError Process promptOf workers w)) = [] ->
    answersUntilError Process promptOf workers w = answers Process promptOf workers w.
Proof.
  induction workers as [| a later IH]; intros w Hnone; [reflexivity |].
  cbn [answersUntilError answers] in *.
  destruct (Model a) as [m |]; [| reflexivity].
  cbv zeta in *.
  destruct (fst (Process m (promptOf a) w)) as [text | err] eqn:Hans.
  - cbn [fst] in Hnone. rewrite failures_cons in Hnone.
    unfold failures at 1 in Hnone. cbn [flat_map answered app] in Hnone.
    rewrite IH by exact Hnone. reflexivity.
  - cbn [fst] in Hnone. unfold failures in Hnone.
    cbn [flat_map answered app] in Hnone. discriminate Hnone.
Qed.

Lemma until_genuine (workers : list Agent) (w : World) :
  Forall (answered_by Process) (fst (answersUntilError Process promptOf workers w)).
Proof.
  revert w. induction workers as [| a later IH]; intros w; cbn [answersUntilError].
  - constructor.
  - destruct (Model a) as [m |]; [| constructor]. cbv zeta.
    destruct (fst (Process m (promptOf a) w)) as [text | err] eqn:Hans; cbn [fst].
    + constructor; [exists w; simpl; now rewrite Hans | apply IH].
    + constructor; [exists w; simpl; now rewrite Hans | constructor].
Qed.


End FanOut.

(** * The standard and synthesis modes, end to end *)

Section StandardModes.

Context {World : Type}.
Variable Process : ModelId -> string -> World -> (string + error) * World.

Lemma firstError_hd (cap : nat) (sent : list error) :
  firstError (mkChan cap sent) = hd_error sent.
Proof. destruct sent; reflexivity. Qed.

Lemma run_spec (sched : list nat) (s : SocietyGroup) (st : St World) :
  Forall (fun a => Model a <> None) (scheduled (Agents s) sched) ->
  length sched <= length (Agents s) ->
  length (buffer (Results s)) + length sched <= capacity (Results s) ->
  run Process sched s st
  = let outcome := answers Process Prompt (scheduled (Agents s) sched) (world st) in
    Val ((hd_error (failures (fst outcome)),
          withResults s (mkChan (capacity (Results s))
                           (buffer (Results s) ++ successes (fst outcome)))),
         mkSt (snd outcome) (trace st ++ fst outcome)).
Proof.
  intros Hm He Hr. unfold run, bind.
  rewrite (goroutines_spec Process (runWorker Process) Prompt (runWorker_step Process))
    by trivial.
  cbn [fst snd]. unfold ret. now rewrite firstError_hd.
Qed.

Variables (sched : list nat) (prompt : string) (agentCount : Z)
  (models : list AIModel) (multiModel : bool).

Hypothesis positive : (0 < agentCount)%Z.
Hypothesis some_model : models <> [].
Hypothesis no_nil : Forall (fun m => m <> None) models.
Hypothesis complete : is_schedule (Z.to_nat agentCount) sched = true.

Let config : Config := mkConfig prompt agentCount multiModel false.

Lemma standard_workers :
  scheduled (map (standardAgent config models) (seq 0 (Z.to_nat agentCount))) sched
  = map (standardAgent config models) sched.
Proof. apply scheduled_pool, is_schedule_bound, complete. Qed.

Lemma standard_models_bound :
  Forall (fun a => Model a <> None) (map (standardAgent config models) sched).
Proof.
  apply Forall_map, Forall_forall. intros k _. simpl.
  apply (proj1 (Forall_forall _ _) no_nil), modelOf_In, some_model.
Qed.

(** The fan-out of the standard dispatch. *)
Lemma standard_fan_out (st : St World) :
  exists pool,
    createSociety config models = Val pool /\
    length (Agents pool) = Z.to_nat agentCount /\
    run Process sched pool st
    = let outcome := answers Process Prompt (map (standardAgent config models) sched)
                       (world st) in
      Val ((hd_error (failures (fst outcome)),
            withResults pool (mkChan (Z.to_nat agentCount) (successes (fst outcome)))),
           mkSt (snd outcome) (trace st ++ fst outcome)).
Proof.
  exists (mkGroup (map (standardAgent config models) (seq 0 (Z.to_nat agentCount)))
            models multiModel (makeChan (Z.to_nat agentCount)) None).
  split; [rewrite createSociety_spec; [reflexivity | simpl; lia | exact some_model] |].
  pose proof (is_schedule_length _ _ complete) as Hlen.
  split; [simpl; now rewrite length_map, length_seq |].
  rewrite run_spec; cbn [Agents Results makeChan capacity buffer].
  - rewrite standard_workers. reflexivity.
  - rewrite standard_workers. apply standard_models_bound.
  - rewrite length_map, length_seq. simpl. lia.
  - simpl. lia.
Qed.

Lemma standard_results_complete (w : World) :
  failures (fst (answers Process Prompt (map (standardAgent config models) sched) w)) = [] ->
  length (successes (fst (answers Process Prompt
                            (map (standardAgent config models) sched) w)))
  = Z.to_nat agentCount.
Proof.
  intros Hnone. rewrite (all_succeeded _ Hnone).
  rewrite answers_length by apply standard_models_bound.
  rewrite length_map. apply is_schedule_length, complete.
Qed.

Lemma Society_spec (st : St World) :
  Society Process sched prompt agentCount models multiModel st
  = let outcome := answers Process Prompt (map (standardAgent config models) sched)
                     (world st) in
    Val (match failures (fst outcome) with
         | err :: _ => ("", Some err)
         | [] => (appendAgentLines 0 (successes (fst outcome)) reportHeader, None)
         end,
         mkSt (snd outcome) (trace st ++ fst outcome)).
Proof.
  unfold Society.
  destruct (Z.leb_spec agentCount 0) as [Hneg | _]; [lia |].
  rewrite (proj2 (Nat.eqb_neq (length models) 0))
    by (intros Hnil; apply length_zero_iff_nil in Hnil; congruence).
  destruct (standard_fan_out st) as (pool & Hpool & Hsize & Hrun).
  unfold RunSociety, bind, lift. fold config. rewrite Hpool, Hrun.
  cbn [fst snd].
  pose proof (standard_results_complete (world st)) as Hall.
  destruct (failures (fst (answers Process Prompt
                             (map (standardAgent config models) sched) (world st))))
    as [| err others'] eqn:Hfail; cbn [hd_error].
  - unfold collectResults. cbn [withResults Agents Results]. rewrite Hsize.
    rewrite <- (Hall eq_refl) at 1.
    rewrite <- (app_nil_r (successes _)) at 2.
    rewrite drain_all. reflexivity.
  - reflexivity.
Qed.

Lemma SocietyWithSynthesis_spec (synth : ModelId) (st : St World) :
  SocietyWithSynthesis Process sched prompt agentCount models multiModel (Some synth) st
  = let outcome := answers Process Prompt (map (standardAgent config models) sched)
                     (world st) in
    match failures (fst outcome) with
    | err :: _ => Val (("", Some err), mkSt (snd outcome) (trace st ++ fst outcome))
    | [] =>
        let results := successes (fst outcome) in
        let answer := Process synth (synthesisPrompt results) (snd outcome) in
        Val ((appendAgentLines 0 results reportHeader ++
              match fst answer with
              | inr err =>
                  nl ++ "Conclusion consolidée (méthode simple - erreur du modèle de synthèse):"
                  ++ nl ++ synthesizeResults results
                  ++ nl ++ nl ++ "Erreur de synthèse: " ++ ErrorText err
              | inl synthesis =>
                  nl ++ "Conclusion consolidée (via modèle de synthèse):" ++ nl ++ synthesis
              end, None),
             mkSt (snd answer)
               (trace st ++ fst outcome
                  ++ [mkCall synth (synthesisPrompt results) (fst answer)]))
    end.
Proof.
  unfold SocietyWithSynthesis.
  destruct (Z.leb_spec agentCount 0) as [Hneg | _]; [lia |].
  rewrite (proj2 (Nat.eqb_neq (length models) 0))
    by (intros Hnil; apply length_zero_iff_nil in Hnil; congruence).
  destruct (standard_fan_out st) as (pool & Hpool & Hsize & Hrun).
  unfold RunSocietyWithSynthesis, bind, lift. fold config. rewrite Hpool, Hrun.
  cbn [fst snd].
  pose proof (standard_results_complete (world st)) as Hall.
  destruct (failures (fst (answers Process Prompt
                             (map (standardAgent config models) sched) (world st))))
    as [| err others'] eqn:Hfail; cbn [hd_error].
  - unfold collectResultsWithSynthesisModel, bind, lift.
    cbn [withResults Agents Results]. rewrite Hsize.
    rewrite <- (Hall eq_refl) at 1.
    rewrite <- (app_nil_r (successes _)) at 2.
    rewrite drain_all. cbn [fst snd].
    unfold SynthesizeWithModel, callProcess. cbn [world trace fst snd].
    rewrite <- app_assoc.
    destruct (fst (Process synth _ _)); reflexivity.
  - reflexivity.
Qed.

End StandardModes.

(** * The phases of the collaborative pipeline *)

Ltac group_norm :=
  unfold withAgents, withContext, withResults;
  cbn [Agents Models MultiModel Results Context Dimensions SharedInsights InitialAnalysis].

Ltac group_norm_in H :=
  unfold withAgents, withContext, withResults in H;
  cbn [Agents Models MultiModel Results Context Dimensions SharedInsights InitialAnalysis]
    in H.

Section Phases.

Context {World : Type}.
Variable Process : ModelId -> string -> World -> (string + error) * World.

Lemma performInitialAnalysis_spec (s : SocietyGroup) (a0 : Agent) (others : list Agent)
  (m0 : ModelId) (ctx : CollaborativeContext) (st : St World) :
  Agents s = a0 :: others -> Model a0 = Some m0 -> Context s = Some ctx ->
  performInitialAnalysis Process s st
  = let answer := Process m0 (analysisPrompt a0) (world st) in
    Val (match fst answer with
         | inr err => (Some err, s)
         | inl initialAnalysis =>
             (None,
              withAgents
                (withContext s (mkContext initialAnalysis (Dimensions ctx) (SharedInsights ctx)))
                (map (setSharedAnalysis initialAnalysis) (Agents s)))
         end,
         mkSt (snd answer) (trace st ++ [mkCall m0 (analysisPrompt a0) (fst answer)])).
Proof.
  intros Hagents Hm Hctx.
  unfold performInitialAnalysis, bind, callProcess. rewrite Hagents, Hm.
  cbn [fst snd]. destruct (fst (Process m0 _ _)); unfold ret.
  - rewrite Hctx. cbn [withContext Agents]. now rewrite Hagents.
  - reflexivity.
Qed.

(** The insights stored by the exploration are the answers in the order in
    which the workers completed; on a failure the function returns with what
    had completed by then. *)
Lemma exploreDimensions_spec (sched : list nat) (s : SocietyGroup)
  (ctx : CollaborativeContext) (st : St World) :
  Forall (fun a => Model a <> None) (scheduled (Agents s) sched) ->
  length (scheduled (Agents s) sched) = length (Agents s) ->
  length sched = length (Agents s) ->
  Results s = makeChan (length (Agents s)) ->
  Context s = Some ctx ->
  exploreDimensions Process sched s st
  = let outcome := answersUntilError Process explorationPrompt
                     (scheduled (Agents s) sched) (world st) in
    Val (match failures (fst outcome) with
         | err :: _ =>
             (Some err,
              withResults s (mkChan (length (Agents s)) (successes (fst outcome))))
         | [] =>
             (None,
              withContext (withResults s (mkChan (length (Agents s)) []))
                (mkContext (InitialAnalysis ctx) (Dimensions ctx)
                   (successes (fst outcome))))
         end,
         mkSt (snd outcome) (trace st ++ fst outcome)).
Proof.
  intros Hm Hall Hlen Hres Hctx. unfold exploreDimensions, bind.
  rewrite (exploring_spec Process);
    [| reflexivity | assumption | simpl; lia | rewrite Hres; simpl; lia].
  rewrite Hres. cbn [fst snd makeChan capacity buffer app].
  rewrite firstError_hd.
  destruct (failures (fst (answersUntilError Process explorationPrompt
                             (scheduled (Agents s) sched) (world st))))
    as [| err others] eqn:Hfail; cbn [hd_error].
  - unfold lift. cbn [withResults Agents Results Context].
    assert (Hn : length (Agents s)
                 = length (successes (fst (answersUntilError Process explorationPrompt
                                             (scheduled (Agents s) sched) (world st))))).
    { rewrite (all_succeeded _ Hfail), (until_no_failure Process _ _ _ Hfail).
      rewrite answers_length by assumption. now rewrite Hall. }
    rewrite Hn at 1.
    rewrite <- (app_nil_r (successes _)) at 2.
    rewrite drain_all. rewrite Hctx. unfold ret. cbn [fst snd].
    reflexivity.
  - reflexivity.
Qed.

Lemma appendDimensions_total (agents : list Agent) :
  forall (insights : list string) (i : nat) (acc : string),
    i + length insights <= length agents ->
    exists text, appendDimensions agents i insights acc = Val text.
Proof.
  induction insights as [| insight rest IH]; intros i acc Hlen; simpl in *.
  - now exists acc.
  - rewrite (index_nth agents i (mkAgent 0 None "" 0 "" "" "")) by lia.
    simpl. apply IH. lia.
Qed.

Lemma integrateAnalyses_spec (s : SocietyGroup) (a0 : Agent) (others : list Agent)
  (m0 : ModelId) (ctx : CollaborativeContext) (st : St World) :
  Agents s = a0 :: others -> Model a0 = Some m0 -> Context s = Some ctx ->
  SharedInsights ctx <> [] ->
  length (SharedInsights ctx) <= length (Agents s) ->
  exists prompt,
    integrationPrompt (Agents s) ctx = Val prompt /\
    integrateAnalyses Process s st
    = let answer := Process m0 prompt (world st) in
      Val (match fst answer with
           | inr err => (Some err, s)
           | inl integratedAnalysis =>
               (None, withAgents s (map (setSharedAnalysis integratedAnalysis) (Agents s)))
           end,
           mkSt (snd answer) (trace st ++ [mkCall m0 prompt (fst answer)])).
Proof.
  intros Hagents Hm Hctx Hsome Hlen.
  unfold integrationPrompt.
  destruct (appendDimensions_total (Agents s) (SharedInsights ctx) 0
              (("Intègre organiquement ces différentes analyses en une compréhension cohérente et unifiée:"
                ++ nl ++ nl) ++
               ("Compréhension initiale de la demande:" ++ nl ++
                InitialAnalysis ctx ++ nl ++ nl)) ltac:(simpl; lia))
    as (text & Htext).
  eexists. split.
  - cbv zeta. rewrite Htext. reflexivity.
  - unfold integrateAnalyses, bind, lift. rewrite Hagents, Hctx.
    destruct (SharedInsights ctx) as [| i0 more] eqn:Hins; [congruence |].
    rewrite <- Hagents. unfold integrationPrompt. cbv zeta. rewrite Hins, Htext.
    cbn [res_bind]. unfold callProcess. rewrite Hm. cbn [fst snd].
    destruct (fst (Process m0 _ _)); reflexivity.
Qed.

Lemma generateFinalResponse_spec (s : SocietyGroup) (a0 : Agent) (others : list Agent)
  (m0 : ModelId) (st : St World) :
  Agents s = a0 :: others -> Model a0 = Some m0 ->
  generateFinalResponse Process s st
  = let answer := Process m0 (responsePrompt a0) (world st) in
    Val (match fst answer with
         | inr err => ("", Some err)
         | inl finalResponse => (finalResponse, None)
         end,
         mkSt (snd answer) (trace st ++ [mkCall m0 (responsePrompt a0) (fst answer)])).
Proof.
  intros Hagents Hm.
  unfold generateFinalResponse, bind, callProcess. rewrite Hagents, Hm.
  cbn [fst snd]. destruct (fst (Process m0 _ _)); reflexivity.
Qed.

End Phases.

(** * The collaborative mode, end to end *)

Section CollaborativeMode.

Context {World : Type}.
Variable Process : ModelId -> string -> World -> (string + error) * World.

Variables (sched : list nat) (prompt : string) (agentCount : Z)
  (models : list AIModel) (multiModel : bool).

Hypothesis positive : (0 < agentCount)%Z.
Hypothesis some_model : models <> [].
Hypothesis no_nil : Forall (fun m => m <> None) models.
Hypothesis complete : is_schedule (Z.to_nat agentCount) sched = true.

Let config : Config := mkConfig prompt agentCount multiModel true.
Let member : nat -> Agent := collaborativeAgent config models.

Lemma pool_head (f : nat -> Agent) :
  map f (seq 0 (Z.to_nat agentCount))
  = f 0 :: map f (seq 1 (Z.to_nat agentCount - 1)).
Proof.
  destruct (Z.to_nat agentCount) as [| n] eqn:Hn; [lia |].
  simpl. now rewrite Nat.sub_0_r.
Qed.

Lemma first_model : exists m0, modelOf multiModel models 0 = Some m0.
Proof.
  pose proof (modelOf_In multiModel models 0 some_model) as Hin.
  pose proof (proj1 (Forall_forall _ _) no_nil _ Hin) as Hsome.
  destruct (modelOf multiModel models 0) as [m0 |]; [now exists m0 | congruence].
Qed.

Lemma collaborative_run (st : St World) :
  exists result st' calls,
    SocietyCollaborative Process sched prompt agentCount models multiModel st
    = Val (result, st') /\
    trace st' = (trace st ++ calls)%list /\
    Forall (answered_by Process) calls /\
    (forall err, hd_error (failures calls) = Some err -> result = ("", Some err)) /\
    (failures calls = [] ->
     exists c1 exploration c3 c4 answer,
       calls = (c1 :: exploration ++ [c3; c4])%list /\
       Some (callee c1) = modelOf multiModel models 0 /\
       Some (callee c3) = modelOf multiModel models 0 /\
       Some (callee c4) = modelOf multiModel models 0 /\
       map (fun c => Some (callee c)) exploration = map (modelOf multiModel models) sched /\
       answered c4 = inl answer /\
       result = (answer, None)).
Proof.
  destruct first_model as (m0 & Hm0).
  pose proof (is_schedule_length _ _ complete) as Hlen.
  pose proof (is_schedule_bound _ _ complete) as Hbound.
  unfold SocietyCollaborative.
  destruct (Z.leb_spec agentCount 0) as [Hneg | _]; [lia |].
  rewrite (proj2 (Nat.eqb_neq (length models) 0))
    by (intros Hnil; apply length_zero_iff_nil in Hnil; congruence).
  unfold RunSocietyCollaborative, bind, lift. fold config.
  rewrite createCollaborativeSociety_spec by (simpl; trivial).
  cbn [AgentCount config cfgMultiModel]. fold member.
  (* phase 1 *)
  rewrite (performInitialAnalysis_spec Process _ (member 0)
             (map member (seq 1 (Z.to_nat agentCount - 1))) m0
             (mkContext "" (dimensionsFor (Z.to_nat agentCount)) []));
    [| apply pool_head | exact Hm0 | reflexivity].
  cbn [fst snd].
  set (c1 := mkCall m0 (analysisPrompt (member 0))
               (fst (Process m0 (analysisPrompt (member 0)) (world st)))).
  destruct (fst (Process m0 (analysisPrompt (member 0)) (world st)))
    as [t1 | e1] eqn:H1.
  2:{ cbn [fst snd]. unfold ret.
      eexists _, _, [c1]. split; [reflexivity |]. split; [reflexivity |].
      split; [repeat constructor; exists (world st); subst c1; simpl; now rewrite H1 |].
      unfold failures. subst c1. simpl. split.
      - intros err Herr. now inversion Herr.
      - discriminate. }
  cbn [fst snd]. group_norm.
  rewrite map_map.
  set (grown := fun k => setSharedAnalysis t1 (member k)).
  set (n := Z.to_nat agentCount) in *.
  set (ctx1 := mkContext t1 (dimensionsFor n) []).
  set (st1 := mkSt (snd (Process m0 (analysisPrompt (member 0)) (world st)))
                (trace st ++ [c1])).
  assert (Hworkers : scheduled (map grown (seq 0 n)) sched = map grown sched)
    by now apply scheduled_pool.
  assert (Hsize : length (map grown (seq 0 n)) = n)
    by now rewrite length_map, length_seq.
  assert (Hbound' : Forall (fun a => Model a <> None) (map grown sched)).
  { apply Forall_map, Forall_forall. intros k _. simpl.
    apply (proj1 (Forall_forall _ _) no_nil), modelOf_In, some_model. }
  (* phase 2 *)
  rewrite (exploreDimensions_spec Process sched _ ctx1 st1);
    group_norm; rewrite ?Hworkers, ?Hsize, ?length_map; trivial.
  cbn [fst snd world trace st1].
  set (outcome := answersUntilError Process explorationPrompt (map grown sched)
                    (snd (Process m0 (analysisPrompt (member 0)) (world st)))).
  assert (Hc1 : failures [c1] = []) by (unfold failures; subst c1; reflexivity).
  assert (Hg1 : answered_by Process c1)
    by (exists (world st); subst c1; simpl; now rewrite H1).
  assert (Hg2 : Forall (answered_by Process) (fst outcome))
    by apply until_genuine.
  destruct (failures (fst outcome)) as [| e2 others2] eqn:H2.
  2:{ cbn [fst snd]. unfold ret.
      eexists _, _, (c1 :: fst outcome). split; [reflexivity |].
      split; [cbn [trace]; now rewrite <- app_assoc |].
      split; [now constructor |].
      rewrite failures_cons, Hc1, H2. simpl. split.
      - intros err Herr. now inversion Herr.
      - discriminate. }
  cbn [fst snd].
  assert (Hsame : outcome = answers Process explorationPrompt (map grown sched)
                              (snd (Process m0 (analysisPrompt (member 0)) (world st))))
    by (apply until_no_failure; exact H2).
  assert (Hcallees : map (fun c => Some (callee c)) (fst outcome)
                     = map (modelOf multiModel models) sched).
  { rewrite Hsame, answers_callee by assumption.
    rewrite map_map. reflexivity. }
  assert (Hinsights : length (successes (fst outcome)) = n).
  { rewrite (all_succeeded _ H2), Hsame.
    rewrite answers_length by assumption. now rewrite length_map. }
  (* phase 3 *)
  set (ctx2 := mkContext t1 (dimensionsFor n) (successes (fst outcome))).
  match goal with
  | |- context [integrateAnalyses Process ?s ?st2] =>
      destruct (integrateAnalyses_spec Process s (grown 0)
                  (map grown (seq 1 (n - 1))) m0 ctx2 st2)
        as (p3 & _ & Hphase3)
  end;
    [apply (pool_head grown) | exact Hm0 | reflexivity
    | cbn [SharedInsights ctx2]; intros Hnil; rewrite Hnil in Hinsights;
      simpl in Hinsights; unfold n in Hinsights; lia
    | group_norm; cbn [SharedInsights ctx2]; rewrite Hinsights, Hsize; lia |].
  rewrite Hphase3. clear Hphase3. cbn [fst snd world trace].
  set (c3 := mkCall m0 p3 (fst (Process m0 p3 (snd outcome)))).
  assert (Hg3 : answered_by Process c3) by now exists (snd outcome).
  destruct (fst (Process m0 p3 (snd outcome))) as [t3 | e3] eqn:H3.
  2:{ cbn [fst snd]. unfold ret.
      eexists _, _, (c1 :: fst outcome ++ [c3])%list. split; [reflexivity |].
      split; [cbn [trace]; now rewrite <- !app_assoc |].
      split; [constructor; [assumption | apply Forall_app; split; [assumption |
                now repeat constructor]] |].
      rewrite failures_cons, failures_app, Hc1, H2.
      unfold failures. subst c3. simpl. split.
      - intros err Herr. now inversion Herr.
      - discriminate. }
  cbn [fst snd]. group_norm.
  rewrite map_map.
  (* phase 4 *)
  set (final := fun k => setSharedAnalysis t3 (grown k)).
  match goal with
  | |- context [generateFinalResponse Process ?s ?st3] =>
      rewrite (generateFinalResponse_spec Process s (final 0)
                 (map final (seq 1 (n - 1))) m0 st3);
        [| apply (pool_head final) | exact Hm0]
  end.
  cbn [fst snd world trace].
  set (c4 := mkCall m0 (responsePrompt (final 0))
               (fst (Process m0 (responsePrompt (final 0)) (snd (Process m0 p3 (snd outcome)))))).
  assert (Hc3 : failures [c3] = []) by (unfold failures; subst c3; reflexivity).
  assert (Hg4 : answered_by Process c4)
    by now exists (snd (Process m0 p3 (snd outcome))).
  destruct (fst (Process m0 (responsePrompt (final 0)) (snd (Process m0 p3 (snd outcome)))))
    as [t4 | e4] eqn:H4; cbn [fst snd]; unfold ret;
    eexists _, _, (c1 :: fst outcome ++ [c3; c4])%list;
    (split; [reflexivity |]);
    (split; [cbn [trace]; now rewrite <- !app_assoc |]);
    (split; [constructor; [assumption | apply Forall_app; split; [assumption |
               now repeat constructor]] |]);
    rewrite failures_cons, failures_app, Hc1, H2,
      (failures_cons c3 [c4]), Hc3;
    unfold failures; subst c4; simpl; split.
  - discriminate.
  - intros _.
    exists c1, (fst outcome), c3, (mkCall m0 (responsePrompt (final 0)) (inl t4)), t4.
    rewrite Hm0. repeat split; trivial.
  - intros err Herr. now inversion Herr.
  - discriminate.
Qed.

End CollaborativeMode.

(** * Pool construction: the properties *)

(** C3. For a positive agent count and at least one capability, standard and
    collaborative pool construction bind agent [i] to the same capability:
    [models[i mod len(models)]] when the multi-capability flag is set and
    there are several capabilities, [models[0]] otherwise. *)
Theorem capability_assignment (config : Config) (models : list AIModel) (i : nat) :
  (0 < AgentCount config)%Z ->
  1 <= length models ->
  i < Z.to_nat (AgentCount config) ->
  exists pool cpool a ca,
    createSociety config models = Val pool /\
    createCollaborativeSociety config models = Val cpool /\
    nth_error (Agents pool) i = Some a /\
    nth_error (Agents cpool) i = Some ca /\
    Model ca = Model a /\
    (cfgMultiModel config = true -> 1 < length models ->
     nth_error models (i mod length models) = Some (Model a)) /\
    (cfgMultiModel config = false \/ length models = 1 ->
     nth_error models 0 = Some (Model a)).
Proof.
  intros Hn Hm Hi.
  assert (Hne : models <> []) by (destruct models; simpl in Hm; [lia | congruence]).
  exists (mkGroup (map (standardAgent config models) (seq 0 (Z.to_nat (AgentCount config))))
            models (cfgMultiModel config) (makeChan (Z.to_nat (AgentCount config))) None).
  exists (mkGroup (map (collaborativeAgent config models)
                     (seq 0 (Z.to_nat (AgentCount config))))
            models (cfgMultiModel config) (makeChan (Z.to_nat (AgentCount config)))
            (Some (mkContext "" (dimensionsFor (Z.to_nat (AgentCount config))) []))).
  exists (standardAgent config models i), (collaborativeAgent config models i).
  split; [apply createSociety_spec; [lia | assumption] |].
  split; [apply createCollaborativeSociety_spec; assumption |].
  split; [now apply nth_error_pool |].
  split; [now apply nth_error_pool |].
  split; [reflexivity |].
  unfold standardAgent, modelOf. cbn [Model]. split.
  - intros Hmulti Hseveral. rewrite Hmulti.
    rewrite (proj2 (Nat.ltb_lt 1 (length models)) Hseveral). cbn [andb].
    apply nth_error_nth'. apply Nat.mod_upper_bound. lia.
  - intros [Hsingle | Hone].
    + rewrite Hsingle. cbn [andb]. apply nth_error_nth'. lia.
    + rewrite Hone, andb_false_r. apply nth_error_nth'. lia.
Qed.

Lemma capability_assignment_witness :
  (0 < AgentCount (mkConfig "X" 3 true false))%Z /\
  1 <= length [Some 1; Some 2] /\
  2 < Z.to_nat (AgentCount (mkConfig "X" 3 true false)) /\
  exists pool cpool a ca,
    createSociety (mkConfig "X" 3 true false) [Some 1; Some 2] = Val pool /\
    createCollaborativeSociety (mkConfig "X" 3 true false) [Some 1; Some 2] = Val cpool /\
    nth_error (Agents pool) 2 = Some a /\
    nth_error (Agents cpool) 2 = Some ca /\
    Model ca = Model a /\
    (cfgMultiModel (mkConfig "X" 3 true false) = true -> 1 < length [Some 1; Some 2] ->
     nth_error [Some 1; Some 2] (2 mod length [Some 1; Some 2]) = Some (Model a)) /\
    (cfgMultiModel (mkConfig "X" 3 true false) = false \/ length [Some 1; Some 2] = 1 ->
     nth_error [Some 1; Some 2] 0 = Some (Model a)).
Proof.
  split; [reflexivity |]. split; [simpl; lia |]. split; [simpl; lia |].
  apply (capability_assignment (mkConfig "X" 3 true false) [Some 1; Some 2] 2);
    [reflexivity | simpl; lia | simpl; lia].
Defined.

Lemma perspectives_distinct : NoDup perspectives.
Proof.
  unfold perspectives.
  repeat (constructor; [simpl; intuition discriminate |]).
  constructor.
Qed.

(** C8. Agent [i] of a pool built by [createSociety] (the pool of the standard
    and of the synthesis mode) is given the prompt
    [perspectives[i mod 5] ++ prompt], where [perspectives] is the fixed list of
    five distinct framing prefixes, and so does [generatePromptForAgent] answer
    for every index [i >= 0]. *)
Theorem prompt_diversification (config : Config) (models : list AIModel) (i : Z) :
  (0 <= i)%Z ->
  generatePromptForAgent (cfgPrompt config) i
  = Val (nth (Z.to_nat (i mod 5)) perspectives "" ++ cfgPrompt config) /\
  ((i < AgentCount config)%Z -> models <> [] ->
   exists pool a,
     createSociety config models = Val pool /\
     nth_error (Agents pool) (Z.to_nat i) = Some a /\
     ID a = i /\
     Prompt a = nth (Z.to_nat (i mod 5)) perspectives "" ++ cfgPrompt config) /\
  length perspectives = 5 /\
  NoDup perspectives.
Proof.
  intros Hi.
  assert (Hmod : Z.to_nat (i mod 5) = Z.to_nat i mod 5).
  { apply Nat2Z.inj. rewrite Nat2Z.inj_mod.
    pose proof (Z.mod_pos_bound i 5 ltac:(lia)).
    rewrite !Z2Nat.id by lia. reflexivity. }
  split.
  - rewrite <- (Z2Nat.id i) at 1 by lia.
    rewrite generatePromptForAgent_of_nat. now rewrite Hmod.
  - split; [| split; [reflexivity | apply perspectives_distinct]].
    intros Hlt Hne.
    exists (mkGroup (map (standardAgent config models)
                       (seq 0 (Z.to_nat (AgentCount config))))
              models (cfgMultiModel config) (makeChan (Z.to_nat (AgentCount config))) None).
    exists (standardAgent config models (Z.to_nat i)).
    split; [apply createSociety_spec; [lia | assumption] |].
    split; [apply nth_error_pool; lia |].
    split; [simpl; lia |].
    simpl. now rewrite Hmod.
Qed.

Lemma prompt_diversification_witness :
  (0 <= 7)%Z /\
  generatePromptForAgent "X" 7
  = Val ("Identifie les exigences spécifiques et le but de cette demande: X").
Proof.
  split; [lia |].
  exact (proj1 (prompt_diversification (mkConfig "X" 8 false false) [Some 1] 7
                  ltac:(lia))).
Defined.

(** C9, as amended. A pool built from a positive agent count [N] and a
    non-empty capability list holds exactly [N] agents, of identities
    [0..N-1], each bound to an entry of the list; so no agent holds a nil
    capability when the list holds none. *)
Theorem pool_invariant (config : Config) (models : list AIModel) :
  (0 < AgentCount config)%Z ->
  models <> [] ->
  exists pool,
    createSociety config models = Val pool /\
    length (Agents pool) = Z.to_nat (AgentCount config) /\
    map ID (Agents pool) = map Z.of_nat (seq 0 (Z.to_nat (AgentCount config))) /\
    Forall (fun a => In (Model a) models) (Agents pool) /\
    (Forall (fun m => m <> None) models ->
     Forall (fun a => Model a <> None) (Agents pool)).
Proof.
  intros Hn Hne.
  exists (mkGroup (map (standardAgent config models) (seq 0 (Z.to_nat (AgentCount config))))
            models (cfgMultiModel config) (makeChan (Z.to_nat (AgentCount config))) None).
  split; [apply createSociety_spec; [lia | assumption] |].
  cbn [Agents].
  assert (Hin : Forall (fun a => In (Model a) models)
                  (map (standardAgent config models)
                     (seq 0 (Z.to_nat (AgentCount config))))).
  { apply Forall_map, Forall_forall. intros k _. simpl. now apply modelOf_In. }
  split; [now rewrite length_map, length_seq |].
  split; [now rewrite map_map |].
  split; [exact Hin |].
  intros Hsome. eapply Forall_impl; [| exact Hin].
  intros a Ha. exact (proj1 (Forall_forall _ _) Hsome _ Ha).
Qed.

Lemma pool_invariant_witness :
  (0 < AgentCount (mkConfig "X" 2 true false))%Z /\
  [Some 1; Some 2] <> [] /\
  exists pool,
    createSociety (mkConfig "X" 2 true false) [Some 1; Some 2] = Val pool /\
    length (Agents pool) = Z.to_nat (AgentCount (mkConfig "X" 2 true false)) /\
    map ID (Agents pool)
    = map Z.of_nat (seq 0 (Z.to_nat (AgentCount (mkConfig "X" 2 true false)))) /\
    Forall (fun a => In (Model a) [Some 1; Some 2]) (Agents pool) /\
    (Forall (fun m => m <> None) [Some 1; Some 2] ->
     Forall (fun a => Model a <> None) (Agents pool)).
Proof.
  split; [reflexivity |]. split; [discriminate |].
  apply (pool_invariant (mkConfig "X" 2 true false) [Some 1; Some 2]);
    [reflexivity | discriminate].
Defined.

(** C9, as stated, fails: a caller may put a nil interface value in the
    capability list, and [createSociety] binds it to an agent. *)
Lemma nil_capability_is_bound :
  ~ (forall (config : Config) (models : list AIModel) (pool : SocietyGroup),
        (0 < AgentCount config)%Z -> models <> [] ->
        createSociety config models = Val pool ->
        length (Agents pool) = Z.to_nat (AgentCount config) /\
        Forall (fun a => Model a <> None) (Agents pool)).
Proof.
  intros Hclaim.
  destruct (Hclaim (mkConfig "X" 1 false false) [None] _
              ltac:(reflexivity) ltac:(discriminate) eq_refl) as [_ Hall].
  inversion Hall as [| a rest Hnil _]; subst.
  now apply Hnil.
Qed.

(** * Validation and error returns *)

(** C7, as amended. The entry points check, in this order, the agent count,
    the capability list and (for the synthesis mode) the synthesis capability.
    So a count [<= 0] fails with [ErrInvalidAgentCount]; an empty list, the
    count being positive, fails with [ErrNoModelsSpecified]; a nil synthesis
    capability, the count being positive and the list non-empty, fails with
    the error of message "le modèle de synthèse ne peut pas être nil".  Each
    time the state comes back unchanged: no [Process] call was made. *)
Theorem validation_errors {World : Type}
  (Process : ModelId -> string -> World -> (string + error) * World)
  (sched : list nat) (prompt : string) (agentCount : Z) (models : list AIModel)
  (multiModel : bool) (synthModel : AIModel) (st : St World) :
  ((agentCount <= 0)%Z ->
   Society Process sched prompt agentCount models multiModel st
   = Val (("", Some ErrInvalidAgentCount), st) /\
   SocietyWithSynthesis Process sched prompt agentCount models multiModel synthModel st
   = Val (("", Some ErrInvalidAgentCount), st) /\
   SocietyCollaborative Process sched prompt agentCount models multiModel st
   = Val (("", Some ErrInvalidAgentCount), st)) /\
  ((0 < agentCount)%Z -> models = [] ->
   Society Process sched prompt agentCount models multiModel st
   = Val (("", Some ErrNoModelsSpecified), st) /\
   SocietyWithSynthesis Process sched prompt agentCount models multiModel synthModel st
   = Val (("", Some ErrNoModelsSpecified), st) /\
   SocietyCollaborative Process sched prompt agentCount models multiModel st
   = Val (("", Some ErrNoModelsSpecified), st)) /\
  ((0 < agentCount)%Z -> models <> [] ->
   SocietyWithSynthesis Process sched prompt agentCount models multiModel None st
   = Val (("", Some (errorsNew "le modèle de synthèse ne peut pas être nil")), st)).
Proof.
  unfold Society, SocietyWithSynthesis, SocietyCollaborative, ret.
  split; [| split].
  - intros Hn. destruct (Z.leb_spec agentCount 0); [auto | lia].
  - intros Hn Hnil. subst models.
    destruct (Z.leb_spec agentCount 0); [lia | auto].
  - intros Hn Hne.
    destruct (Z.leb_spec agentCount 0); [lia |].
    destruct models; [congruence | reflexivity].
Qed.

(** C7, as stated, fails where two checks apply at once: with an empty
    capability list and the agent count 0, [Society] fails with
    [ErrInvalidAgentCount], not with [ErrNoModelsSpecified]. *)
Lemma empty_list_with_zero_agents :
  Society echoProcess [] "X" 0 [] false startState
  = Val (("", Some ErrInvalidAgentCount), startState) /\
  Society echoProcess [] "X" 0 [] false startState
  <> Val (("", Some ErrNoModelsSpecified), startState).
Proof.
  split; [reflexivity | discriminate].
Qed.

Lemma validation_errors_witness :
  ((0 <= 0)%Z /\
   Society echoProcess [0] "X" 0 [Some 1] true startState
   = Val (("", Some ErrInvalidAgentCount), startState)) /\
  ((0 < 2)%Z /\ @nil AIModel = [] /\
   SocietyCollaborative echoProcess [0; 1] "X" 2 [] true startState
   = Val (("", Some ErrNoModelsSpecified), startState)) /\
  ((0 < 2)%Z /\ [Some 1] <> [] /\
   SocietyWithSynthesis echoProcess [0; 1] "X" 2 [Some 1] true None startState
   = Val (("", Some (errorsNew "le modèle de synthèse ne peut pas être nil")), startState)).
Proof.
  split; [| split].
  - split; [lia |].
    apply (proj1 (validation_errors echoProcess [0] "X" 0 [Some 1] true None startState)).
    lia.
  - split; [lia |]. split; [reflexivity |].
    apply (proj1 (proj2 (validation_errors echoProcess [0; 1] "X" 2 [] true None
                           startState))); [lia | reflexivity].
  - split; [lia |]. split; [discriminate |].
    apply (proj2 (proj2 (validation_errors echoProcess [0; 1] "X" 2 [Some 1] true None
                           startState))); [lia | discriminate].
Defined.

Ltac by_cases H :=
  repeat match type of H with
         | context [match ?x with _ => _ end] => destruct x eqn:?
         end;
  try discriminate H;
  try (inversion H; subst; reflexivity).

Lemma RunSociety_error_text {World : Type}
  (Process : ModelId -> string -> World -> (string + error) * World)
  (sched : list nat) (config : Config) (models : list AIModel)
  (st st' : St World) (text : string) (err : error) :
  RunSociety Process sched config models st = Val ((text, Some err), st') -> text = "".
Proof.
  unfold RunSociety, bind, lift, ret. intros H. by_cases H.
Qed.

Lemma RunSocietyWithSynthesis_error_text {World : Type}
  (Process : ModelId -> string -> World -> (string + error) * World)
  (sched : list nat) (config : Config) (models : list AIModel) (synthModel : AIModel)
  (st st' : St World) (text : string) (err : error) :
  RunSocietyWithSynthesis Process sched config models synthModel st
  = Val ((text, Some err), st') -> text = "".
Proof.
  unfold RunSocietyWithSynthesis, bind, lift, ret. intros H. by_cases H.
Qed.

Lemma RunSocietyCollaborative_error_text {World : Type}
  (Process : ModelId -> string -> World -> (string + error) * World)
  (sched : list nat) (config : Config) (models : list AIModel)
  (st st' : St World) (text : string) (err : error) :
  RunSocietyCollaborative Process sched config models st
  = Val ((text, Some err), st') -> text = "".
Proof.
  unfold RunSocietyCollaborative, bind, lift, ret. intros H. by_cases H.
Qed.

(** C10. Whenever [Society], [SocietyWithSynthesis], [SocietyCollaborative] or
    one of [RunSociety], [RunSocietyWithSynthesis], [RunSocietyCollaborative]
    returns a non-nil error, the text returned with it is the empty string. *)
Theorem error_means_empty_text {World : Type}
  (Process : ModelId -> string -> World -> (string + error) * World)
  (sched : list nat) (prompt : string) (agentCount : Z) (models : list AIModel)
  (multiModel : bool) (synthModel : AIModel) (config : Config)
  (st st' : St World) (text : string) (err : error) :
  Society Process sched prompt agentCount models multiModel st
    = Val ((text, Some err), st') \/
  SocietyWithSynthesis Process sched prompt agentCount models multiModel synthModel st
    = Val ((text, Some err), st') \/
  SocietyCollaborative Process sched prompt agentCount models multiModel st
    = Val ((text, Some err), st') \/
  RunSociety Process sched config models st = Val ((text, Some err), st') \/
  RunSocietyWithSynthesis Process sched config models synthModel st
    = Val ((text, Some err), st') \/
  RunSocietyCollaborative Process sched config models st = Val ((text, Some err), st') ->
  text = "".
Proof.
  unfold Society, SocietyWithSynthesis, SocietyCollaborative, ret.
  intros [H | [H | [H | [H | [H | H]]]]].
  - destruct (agentCount <=? 0)%Z; [now inversion H |].
    destruct (length models =? 0)%nat; [now inversion H |].
    eapply RunSociety_error_text, H.
  - destruct (agentCount <=? 0)%Z; [now inversion H |].
    destruct (length models =? 0)%nat; [now inversion H |].
    destruct synthModel; [| now inversion H].
    eapply RunSocietyWithSynthesis_error_text, H.
  - destruct (agentCount <=? 0)%Z; [now inversion H |].
    destruct (length models =? 0)%nat; [now inversion H |].
    eapply RunSocietyCollaborative_error_text, H.
  - eapply RunSociety_error_text, H.
  - eapply RunSocietyWithSynthesis_error_text, H.
  - eapply RunSocietyCollaborative_error_text, H.
Qed.

Lemma error_means_empty_text_witness :
  Society echoProcess [1; 0] "X" 2 [Some 1; Some 0] true startState
  = Val (("", Some (errorsNew "boom")),
         mkSt tt
           [mkCall 0 "Considère les implications et le contexte plus large de cette demande: X"
              (inr (errorsNew "boom"));
            mkCall 1 "Analyse cette demande de manière factuelle et concise: X"
              (inl "m1:Analyse cette demande de manière factuelle et concise: X")]) /\
  "" = "".
Proof.
  split; [reflexivity |].
  apply (error_means_empty_text echoProcess [1; 0] "X" 2 [Some 1; Some 0] true None
           (mkConfig "X" 2 true false) startState
           (mkSt tt
              [mkCall 0 "Considère les implications et le contexte plus large de cette demande: X"
                 (inr (errorsNew "boom"));
               mkCall 1 "Analyse cette demande de manière factuelle et concise: X"
                 (inl "m1:Analyse cette demande de manière factuelle et concise: X")])
           "" (errorsNew "boom")).
  left. reflexivity.
Defined.

(** * Reports *)

Lemma append_assoc (a b c : string) : (a ++ b) ++ c = a ++ (b ++ c).
Proof. induction a as [| ch a IH]; simpl; [reflexivity | now rewrite IH]. Qed.

Lemma append_nil_r (a : string) : a ++ "" = a.
Proof. induction a as [| ch a IH]; simpl; [reflexivity | now rewrite IH]. Qed.

Lemma label_succ (i : nat) : (Z.of_nat i + 1)%Z = Z.of_nat (S i).
Proof. lia. Qed.

Lemma appendAgentLines_spec (results : list string) :
  forall (i : nat) (acc : string),
    appendAgentLines i results acc
    = acc ++ joined (map agentLine (labelled (S i) results)).
Proof.
  induction results as [| result rest IH]; intros i acc.
  - simpl. now rewrite append_nil_r.
  - cbn [appendAgentLines]. rewrite IH, append_assoc, label_succ. reflexivity.
Qed.

Lemma appendSimpleEntries_spec (results : list string) :
  forall (i : nat) (acc : string),
    appendSimpleEntries i results acc
    = acc ++ joined (map simpleEntry (labelled (S i) results)).
Proof.
  induction results as [| result rest IH]; intros i acc.
  - simpl. now rewrite append_nil_r.
  - cbn [appendSimpleEntries]. rewrite IH, append_assoc, label_succ. reflexivity.
Qed.

Lemma labelled_labels (results : list string) (from : nat) :
  map fst (labelled from results) = seq from (length results).
Proof.
  unfold labelled. revert from.
  induction results as [| result rest IH]; intros from; simpl;
    [reflexivity | now rewrite IH].
Qed.

Lemma labelled_texts (results : list string) (from : nat) :
  map snd (labelled from results) = results.
Proof.
  unfold labelled. revert from.
  induction results as [| result rest IH]; intros from; simpl;
    [reflexivity | now rewrite IH].
Qed.

Section FixedAnswers.

Context {World : Type}.
Variable Process : ModelId -> string -> World -> (string + error) * World.
Variables (promptOf : Agent -> string) (member : nat -> Agent) (size : nat).

(** Workers that cannot fail do not fail. *)
Lemma answers_all_succeed (sched : list nat) :
  (forall i m w, i < size -> Model (member i) = Some m ->
                 exists text, fst (Process m (promptOf (member i)) w) = inl text) ->
  (forall k, In k sched -> k < size) ->
  forall w, failures (fst (answers Process promptOf (map member sched) w)) = [].
Proof.
  intros Hok. induction sched as [| k later IH]; intros Hb w; simpl.
  - reflexivity.
  - destruct (Model (member k)) as [m |] eqn:Hm; [| reflexivity].
    destruct (Hok k m w (Hb k (or_introl eq_refl)) Hm) as (text & Htext).
    cbn [fst]. rewrite failures_cons. unfold failures at 1. simpl. rewrite Htext.
    simpl. apply IH. intros j Hj. apply Hb. now right.
Qed.

(** Workers whose answer is fixed answer it, whenever they run. *)
Lemma answers_fixed (response : nat -> string) (sched : list nat) :
  (forall i m w, i < size -> Model (member i) = Some m ->
                 fst (Process m (promptOf (member i)) w) = inl (response i)) ->
  (forall k, In k sched -> k < size) ->
  Forall (fun a => Model a <> None) (map member sched) ->
  forall w, successes (fst (answers Process promptOf (map member sched) w))
            = map response sched.
Proof.
  intros Hresp. induction sched as [| k later IH]; intros Hb Hm w; simpl.
  - reflexivity.
  - inversion Hm as [| ? ? Hk Hlater]; subst.
    destruct (Model (member k)) as [m |] eqn:Hmk; [| congruence].
    cbn [fst]. rewrite successes_cons. unfold successes at 1. simpl.
    rewrite (Hresp k m w (Hb k (or_introl eq_refl)) Hmk). simpl.
    f_equal. apply IH; trivial. intros j Hj. apply Hb. now right.
Qed.

End FixedAnswers.

(** C5. With [N > 0] agents whose calls succeed, agent [i] answering the fixed
    text [response i], the texts being distinct: whatever the order [sched]
    in which the calls complete, [Society] returns the report header followed
    by one line ["Agent k: text"] per entry, the labels being [1..N] in order
    and the texts the agents' answers in completion order, so that each
    answer occurs exactly once. *)
Theorem standard_report_in_arrival_order {World : Type}
  (Process : ModelId -> string -> World -> (string + error) * World)
  (sched : list nat) (prompt : string) (agentCount : Z) (models : list AIModel)
  (multiModel : bool) (response : nat -> string) (st : St World) :
  (0 < agentCount)%Z ->
  models <> [] ->
  Forall (fun m => m <> None) models ->
  is_schedule (Z.to_nat agentCount) sched = true ->
  (forall i m w,
      i < Z.to_nat agentCount ->
      Model (standardAgent (mkConfig prompt agentCount multiModel false) models i) = Some m ->
      fst (Process m
             (Prompt (standardAgent (mkConfig prompt agentCount multiModel false) models i)) w)
      = inl (response i)) ->
  (forall i j, i < Z.to_nat agentCount -> j < Z.to_nat agentCount ->
               response i = response j -> i = j) ->
  exists entries st',
    Society Process sched prompt agentCount models multiModel st
    = Val ((reportHeader ++ joined (map agentLine entries), None), st') /\
    map fst entries = seq 1 (Z.to_nat agentCount) /\
    map snd entries = map response sched /\
    (forall i, i < Z.to_nat agentCount ->
               count_occ string_dec (map snd entries) (response i) = 1).
Proof.
  intros Hn Hne Hsome Hsched Hresp Hinj.
  pose proof (is_schedule_bound _ _ Hsched) as Hbound.
  pose proof (is_schedule_length _ _ Hsched) as Hlen.
  pose proof (is_schedule_Permutation _ _ Hsched) as Hperm.
  exists (labelled 1 (map response sched)). eexists.
  rewrite (Society_spec Process sched prompt agentCount models multiModel
             Hn Hne Hsome Hsched).
  cbv zeta.
  rewrite (answers_all_succeed Process Prompt _ (Z.to_nat agentCount)); trivial.
  2:{ intros i m w Hi Hm. eexists. now apply Hresp. }
  rewrite (answers_fixed Process Prompt _ (Z.to_nat agentCount) response); trivial.
  2:{ now apply standard_models_bound. }
  rewrite appendAgentLines_spec.
  split; [reflexivity |].
  split; [now rewrite labelled_labels, length_map, Hlen |].
  split; [apply labelled_texts |].
  intros i Hi. rewrite labelled_texts.
  assert (Hdistinct : NoDup (map response sched)).
  { apply (Permutation_NoDup (Permutation_map response Hperm)).
    apply NoDup_map_NoDup_ForallPairs; [| apply seq_NoDup].
    intros a b Ha Hb. apply in_seq in Ha, Hb. apply Hinj; lia. }
  apply (proj1 (NoDup_count_occ' string_dec _) Hdistinct).
  apply in_map. apply (Permutation_in i Hperm). apply in_seq. lia.
Qed.

Lemma standard_report_in_arrival_order_witness :
  (0 < 2)%Z /\
  [Some 1; Some 2] <> [] /\
  is_schedule (Z.to_nat 2) [1; 0] = true /\
  exists entries st',
    Society echoProcess [1; 0] "X" 2 [Some 1; Some 2] true startState
    = Val ((reportHeader ++ joined (map agentLine entries), None), st') /\
    map fst entries = seq 1 (Z.to_nat 2) /\
    map snd entries = map twoAnswers [1; 0] /\
    (forall i, i < Z.to_nat 2 ->
               count_occ string_dec (map snd entries) (twoAnswers i) = 1).
Proof.
  split; [lia |]. split; [discriminate |]. split; [reflexivity |].
  apply (standard_report_in_arrival_order echoProcess [1; 0] "X" 2 [Some 1; Some 2] true
           twoAnswers startState).
  - lia.
  - discriminate.
  - repeat constructor; discriminate.
  - reflexivity.
  - intros i m w Hi Hm.
    destruct i as [| [| i]]; [| | simpl in Hi; lia];
      simpl in Hm; inversion Hm; subst; reflexivity.
  - intros i j Hi Hj Heq.
    destruct i as [| [| i]]; destruct j as [| [| j]];
      simpl in Hi, Hj; try lia; try reflexivity; discriminate Heq.
Defined.

(** C4. On every valid input and for every completion order,
    [SocietyWithSynthesis] returns.  In every run in which the agents' calls
    all succeed, the synthesis capability is called once on their answers,
    and if that call fails the result still carries no error: its text is the
    report of the agents' answers, then the naive concatenation of
    [synthesizeResults] (one ["Agent k:"] entry per answer), then the message
    of the synthesis failure. *)
Theorem synthesis_failure_falls_back {World : Type}
  (Process : ModelId -> string -> World -> (string + error) * World)
  (sched : list nat) (prompt : string) (agentCount : Z) (models : list AIModel)
  (multiModel : bool) (synth : ModelId) (st : St World) :
  (0 < agentCount)%Z ->
  models <> [] ->
  Forall (fun m => m <> None) models ->
  is_schedule (Z.to_nat agentCount) sched = true ->
  exists result st' calls extra,
    SocietyWithSynthesis Process sched prompt agentCount models multiModel (Some synth) st
    = Val (result, st') /\
    trace st' = (trace st ++ calls ++ extra)%list /\
    length calls = Z.to_nat agentCount /\
    Forall (answered_by Process) (calls ++ extra) /\
    (failures calls = [] ->
     exists answer,
       extra = [mkCall synth (synthesisPrompt (successes calls)) answer] /\
       (forall err,
           answer = inr err ->
           result
           = (reportHeader ++ joined (map agentLine (labelled 1 (successes calls))) ++
              nl ++ "Conclusion consolidée (méthode simple - erreur du modèle de synthèse):" ++
              nl ++
              ("Synthèse des résultats:" ++ nl ++
               joined (map simpleEntry (labelled 1 (successes calls)))) ++
              nl ++ nl ++ "Erreur de synthèse: " ++ ErrorText err,
              None))).
Proof.
  intros Hn Hne Hsome Hsched.
  pose proof (SocietyWithSynthesis_spec Process sched prompt agentCount models multiModel
                Hn Hne Hsome Hsched synth st) as Hrun.
  cbv zeta in Hrun.
  pose proof (standard_models_bound sched prompt agentCount models multiModel Hne Hsome)
    as Hbound.
  set (config := mkConfig prompt agentCount multiModel false) in *.
  set (outcome := answers Process Prompt (map (standardAgent config models) sched)
                    (world st)) in *.
  assert (Hlen : length (fst outcome) = Z.to_nat agentCount).
  { unfold outcome. rewrite answers_length, length_map by assumption.
    now apply is_schedule_length. }
  assert (Hgenuine : Forall (answered_by Process) (fst outcome))
    by apply answers_genuine.
  destruct (failures (fst outcome)) as [| err others] eqn:Hfail.
  - eexists _, _, (fst outcome), _.
    split; [exact Hrun |]. split; [reflexivity |]. split; [exact Hlen |].
    split.
    { apply Forall_app. split; [exact Hgenuine |].
      repeat constructor. now exists (snd outcome). }
    intros _. eexists. split; [reflexivity |].
    intros failure Hanswer. rewrite Hanswer.
    rewrite appendAgentLines_spec. unfold synthesizeResults.
    rewrite appendSimpleEntries_spec. cbn [append]. rewrite append_assoc. reflexivity.
  - eexists _, _, (fst outcome), [].
    split; [exact Hrun |]. split; [cbn [trace]; now rewrite app_nil_r |].
    split; [exact Hlen |]. split; [now rewrite app_nil_r |].
    intros Habsurd. congruence.
Qed.

Lemma synthesis_failure_falls_back_witness :
  (0 < 2)%Z /\
  [Some 1; Some 2] <> [] /\
  is_schedule (Z.to_nat 2) [1; 0] = true /\
  exists result st' calls extra,
    SocietyWithSynthesis echoProcess [1; 0] "X" 2 [Some 1; Some 2] true (Some 0) startState
    = Val (result, st') /\
    trace st' = (trace startState ++ calls ++ extra)%list /\
    length calls = Z.to_nat 2 /\
    Forall (answered_by echoProcess) (calls ++ extra) /\
    (failures calls = [] ->
     exists answer,
       extra = [mkCall 0 (synthesisPrompt (successes calls)) answer] /\
       (forall err,
           answer = inr err ->
           result
           = (reportHeader ++ joined (map agentLine (labelled 1 (successes calls))) ++
              nl ++ "Conclusion consolidée (méthode simple - erreur du modèle de synthèse):" ++
              nl ++
              ("Synthèse des résultats:" ++ nl ++
               joined (map simpleEntry (labelled 1 (successes calls)))) ++
              nl ++ nl ++ "Erreur de synthèse: " ++ ErrorText err,
              None))).
Proof.
  split; [lia |]. split; [discriminate |]. split; [reflexivity |].
  apply (synthesis_failure_falls_back echoProcess [1; 0] "X" 2 [Some 1; Some 2] true 0
           startState).
  - lia.
  - discriminate.
  - repeat constructor; discriminate.
  - reflexivity.
Defined.

(** * Failures *)

(** C2. On every valid input and for every completion order, [Society] and
    [SocietyCollaborative] return; and if any call they made to a capability
    failed, what they return is the empty text together with the failure that
    reached the runner first: no report, no partial answer. *)
Theorem first_failure_aborts {World : Type}
  (Process : ModelId -> string -> World -> (string + error) * World)
  (sched : list nat) (prompt : string) (agentCount : Z) (models : list AIModel)
  (multiModel : bool) (st : St World) :
  (0 < agentCount)%Z ->
  models <> [] ->
  Forall (fun m => m <> None) models ->
  is_schedule (Z.to_nat agentCount) sched = true ->
  (exists result st' calls,
     Society Process sched prompt agentCount models multiModel st = Val (result, st') /\
     trace st' = (trace st ++ calls)%list /\
     Forall (answered_by Process) calls /\
     length calls = Z.to_nat agentCount /\
     (forall err others, failures calls = err :: others -> result = ("", Some err))) /\
  (exists result st' calls,
     SocietyCollaborative Process sched prompt agentCount models multiModel st
     = Val (result, st') /\
     trace st' = (trace st ++ calls)%list /\
     Forall (answered_by Process) calls /\
     (forall err others, failures calls = err :: others -> result = ("", Some err))).
Proof.
  intros Hn Hne Hsome Hsched. split.
  - pose proof (Society_spec Process sched prompt agentCount models multiModel
                  Hn Hne Hsome Hsched st) as Hrun.
    cbv zeta in Hrun.
    set (outcome := answers Process Prompt
                      (map (standardAgent (mkConfig prompt agentCount multiModel false) models)
                         sched) (world st)) in *.
    eexists _, _, (fst outcome).
    split; [exact Hrun |]. split; [reflexivity |].
    split; [apply answers_genuine |].
    split.
    + unfold outcome. rewrite answers_length, length_map.
      * now apply is_schedule_length.
      * now apply standard_models_bound.
    + intros err others Hfail. now rewrite Hfail.
  - destruct (collaborative_run Process sched prompt agentCount models multiModel
                Hn Hne Hsome Hsched st)
      as (result & st' & calls & Hrun & Htrace & Hgenuine & Hfirst & _).
    exists result, st', calls. repeat split; trivial.
    intros err others Hfail. apply Hfirst. now rewrite Hfail.
Qed.

Lemma first_failure_aborts_witness :
  (0 < 2)%Z /\
  [Some 1; Some 0] <> [] /\
  is_schedule (Z.to_nat 2) [1; 0] = true /\
  (exists result st' calls,
     Society echoProcess [1; 0] "X" 2 [Some 1; Some 0] true startState = Val (result, st') /\
     trace st' = (trace startState ++ calls)%list /\
     Forall (answered_by echoProcess) calls /\
     length calls = Z.to_nat 2 /\
     (forall err others, failures calls = err :: others -> result = ("", Some err))) /\
  (exists result st' calls,
     SocietyCollaborative echoProcess [1; 0] "X" 2 [Some 1; Some 0] true startState
     = Val (result, st') /\
     trace st' = (trace startState ++ calls)%list /\
     Forall (answered_by echoProcess) calls /\
     (forall err others, failures calls = err :: others -> result = ("", Some err))).
Proof.
  split; [lia |]. split; [discriminate |]. split; [reflexivity |].
  apply (first_failure_aborts echoProcess [1; 0] "X" 2 [Some 1; Some 0] true startState).
  - lia.
  - discriminate.
  - repeat constructor; discriminate.
  - reflexivity.
Defined.

(** * Call counts *)

Lemma callsTo_app (m : ModelId) (xs ys : list Call) :
  callsTo m (xs ++ ys) = callsTo m xs + callsTo m ys.
Proof. unfold callsTo. now rewrite filter_app, length_app. Qed.

Lemma callsTo_count (m : ModelId) (calls : list Call) :
  callsTo m calls
  = count_occ AIModel_eq_dec (map (fun c => Some (callee c)) calls) (Some m).
Proof.
  unfold callsTo. induction calls as [| c calls IH]; [reflexivity |].
  cbn [map filter count_occ].
  destruct (Nat.eqb_spec (callee c) m) as [Heq | Hneq];
    destruct (AIModel_eq_dec (Some (callee c)) (Some m)) as [Heq' | Hneq'];
    cbn [length]; rewrite ?IH; try reflexivity.
  - subst m. now contradiction Hneq'.
  - inversion Heq'. contradiction.
Qed.

Lemma distinct_bindings (f : nat -> AIModel) (n i j : nat) :
  NoDup (map f (seq 0 n)) -> i < n -> j < n -> f i = f j -> i = j.
Proof.
  intros Hnd Hi Hj Heq.
  apply (proj1 (NoDup_nth_error _) Hnd).
  - now rewrite length_map, length_seq.
  - rewrite !nth_error_pool by assumption. now f_equal.
Qed.

(** C6. On every valid input whose agents are bound to distinct
    capabilities, and for every completion order, [SocietyCollaborative]
    returns.  In every run in which no call failed, the calls are: one to the
    first agent's capability (initial analysis), one per agent in the
    exploration, then two more to the first agent's capability (integration,
    final response).  So the first agent's capability is called 3 times
    outside the exploration and 4 times in all, every other agent's
    capability once, and each agent's capability exactly once for the
    exploration. *)
Theorem collaborative_call_counts {World : Type}
  (Process : ModelId -> string -> World -> (string + error) * World)
  (sched : list nat) (prompt : string) (agentCount : Z) (models : list AIModel)
  (multiModel : bool) (st : St World) :
  (0 < agentCount)%Z ->
  models <> [] ->
  Forall (fun m => m <> None) models ->
  is_schedule (Z.to_nat agentCount) sched = true ->
  NoDup (map (modelOf multiModel models) (seq 0 (Z.to_nat agentCount))) ->
  exists result st' calls,
    SocietyCollaborative Process sched prompt agentCount models multiModel st
    = Val (result, st') /\
    trace st' = (trace st ++ calls)%list /\
    Forall (answered_by Process) calls /\
    (failures calls = [] ->
     exists answer c1 exploration c3 c4,
       result = (answer, None) /\
       calls = (c1 :: exploration ++ [c3; c4])%list /\
       Some (callee c1) = modelOf multiModel models 0 /\
       Some (callee c3) = modelOf multiModel models 0 /\
       Some (callee c4) = modelOf multiModel models 0 /\
       length exploration = Z.to_nat agentCount /\
       (forall i m,
           i < Z.to_nat agentCount -> modelOf multiModel models i = Some m ->
           callsTo m exploration = 1 /\
           callsTo m [c1; c3; c4] = (if (i =? 0)%nat then 3 else 0) /\
           callsTo m (c1 :: exploration ++ [c3; c4]) = (if (i =? 0)%nat then 4 else 1))).
Proof.
  intros Hn Hne Hsome Hsched Hdistinct.
  destruct (collaborative_run Process sched prompt agentCount models multiModel
              Hn Hne Hsome Hsched st)
    as (result & st' & calls & Hrun & Htrace & Hgenuine & _ & Hshape).
  exists result, st', calls.
  split; [exact Hrun |]. split; [exact Htrace |]. split; [exact Hgenuine |].
  intros Hnone.
  destruct (Hshape Hnone)
    as (c1 & exploration & c3 & c4 & answer & Hcalls & H1 & H3 & H4 & Hexp & _ & Hres).
  exists answer, c1, exploration, c3, c4.
  split; [exact Hres |]. split; [exact Hcalls |].
  repeat (split; [assumption |]).
  pose proof (is_schedule_Permutation _ _ Hsched) as Hperm.
  split.
  { rewrite <- (length_map (fun c => Some (callee c))), Hexp, length_map.
    now apply is_schedule_length. }
  intros i m Hi Hm.
  assert (Hexploration : callsTo m exploration = 1).
  { rewrite callsTo_count, Hexp.
    apply NoDup_count_occ'.
    - apply (Permutation_NoDup (Permutation_map _ Hperm) Hdistinct).
    - rewrite <- Hm. apply in_map. apply (Permutation_in i Hperm), in_seq. lia. }
  assert (Hsingle : callsTo m [c1; c3; c4] = (if (i =? 0)%nat then 3 else 0)).
  { unfold callsTo. simpl.
    destruct (Nat.eqb_spec i 0) as [Hzero | Hother].
    - subst i. rewrite Hm in H1, H3, H4.
      injection H1 as E1. injection H3 as E3. injection H4 as E4.
      rewrite E1, E3, E4, !Nat.eqb_refl. reflexivity.
    - assert (Hdiff : modelOf multiModel models 0 <> Some m).
      { intros Heq. apply Hother.
        apply (distinct_bindings _ _ i 0 Hdistinct); [lia | lia | congruence]. }
      rewrite <- H1 in Hdiff.
      assert (E1 : (callee c1 =? m)%nat = false)
        by (apply Nat.eqb_neq; congruence).
      assert (E3 : (callee c3 =? m)%nat = false)
        by (apply Nat.eqb_neq; congruence).
      assert (E4 : (callee c4 =? m)%nat = false)
        by (apply Nat.eqb_neq; congruence).
      rewrite E1, E3, E4. reflexivity. }
  split; [exact Hexploration |]. split; [exact Hsingle |].
  change (c1 :: exploration ++ [c3; c4])%list
    with ([c1] ++ exploration ++ [c3; c4])%list.
  rewrite !callsTo_app, Hexploration.
  change [c1; c3; c4] with ([c1] ++ [c3; c4])%list in Hsingle.
  rewrite callsTo_app in Hsingle.
  destruct (i =? 0)%nat; lia.
Qed.

Lemma collaborative_call_counts_witness :
  (0 < 5)%Z /\
  [Some 1; Some 2; Some 3; Some 4; Some 5] <> [] /\
  is_schedule (Z.to_nat 5) [3; 0; 4; 2; 1] = true /\
  exists result st' calls,
    SocietyCollaborative echoProcess [3; 0; 4; 2; 1] "X" 5
      [Some 1; Some 2; Some 3; Some 4; Some 5] true startState
    = Val (result, st') /\
    trace st' = (trace startState ++ calls)%list /\
    Forall (answered_by echoProcess) calls /\
    (failures calls = [] ->
     exists answer c1 exploration c3 c4,
       result = (answer, None) /\
       calls = (c1 :: exploration ++ [c3; c4])%list /\
       Some (callee c1) = modelOf true [Some 1; Some 2; Some 3; Some 4; Some 5] 0 /\
       Some (callee c3) = modelOf true [Some 1; Some 2; Some 3; Some 4; Some 5] 0 /\
       Some (callee c4) = modelOf true [Some 1; Some 2; Some 3; Some 4; Some 5] 0 /\
       length exploration = Z.to_nat 5 /\
       (forall i m,
           i < Z.to_nat 5 ->
           modelOf true [Some 1; Some 2; Some 3; Some 4; Some 5] i = Some m ->
           callsTo m exploration = 1 /\
           callsTo m [c1; c3; c4] = (if (i =? 0)%nat then 3 else 0) /\
           callsTo m (c1 :: exploration ++ [c3; c4]) = (if (i =? 0)%nat then 4 else 1))).
Proof.
  split; [lia |]. split; [discriminate |]. split; [reflexivity |].
  apply (collaborative_call_counts echoProcess [3; 0; 4; 2; 1] "X" 5
           [Some 1; Some 2; Some 3; Some 4; Some 5] true startState).
  - lia.
  - discriminate.
  - repeat constructor; discriminate.
  - reflexivity.
  - repeat (constructor; [simpl; intuition discriminate |]). constructor.
Defined.

(** * Exploration insights *)

(** C1, at a failing input. Two agents bound to the capabilities 1 and 2
    (which answer their prompt after their own name), agent 1 completing its
    exploration call before agent 0: [exploreDimensions] stores agent 1's
    answer at index 0 of [SharedInsights] and agent 0's at index 1, and the
    loop of [integrateAnalyses] then prints agent 1's answer under the
    dimension of agent 0. *)
Theorem insights_follow_completion_order :
  exists pool s1 st1 s2 st2 ctx a0 a1 answer0 answer1,
    createCollaborativeSociety (mkConfig "X" 2 true true) [Some 1; Some 2] = Val pool /\
    performInitialAnalysis echoProcess pool startState = Val ((None, s1), st1) /\
    exploreDimensions echoProcess [1; 0] s1 st1 = Val ((None, s2), st2) /\
    Agents s2 = [a0; a1] /\
    ID a0 = 0%Z /\ ID a1 = 1%Z /\
    trace st2 = (trace st1 ++ [mkCall 2 (explorationPrompt a1) (inl answer1);
                               mkCall 1 (explorationPrompt a0) (inl answer0)])%list /\
    Context s2 = Some ctx /\
    SharedInsights ctx = [answer1; answer0] /\
    answer0 <> answer1 /\
    appendDimensions (Agents s2) 0 (SharedInsights ctx) ""
    = Val ("Dimension: " ++ DimensionToExplore a0 ++ nl ++ answer1 ++ nl ++ nl ++
           "Dimension: " ++ DimensionToExplore a1 ++ nl ++ answer0 ++ nl ++ nl).
Proof.
  do 10 eexists.
  split; [vm_compute; reflexivity |].
  split; [vm_compute; reflexivity |].
  split; [vm_compute; reflexivity |].
  split; [reflexivity |].
  split; [reflexivity |].
  split; [reflexivity |].
  split; [reflexivity |].
  split; [reflexivity |].
  split; [reflexivity |].
  split; [discriminate | reflexivity].
Qed.

(** * Further properties of pool construction *)

Lemma dimensionsFor_firstn (n : nat) : dimensionsFor n = firstn n allDimensions.
Proof.
  unfold dimensionsFor.
  destruct (Nat.ltb_spec n (length allDimensions)) as [Hlt | Hge]; [reflexivity |].
  symmetry. now apply firstn_all2.
Qed.

(** X1. A collaborative pool of [N > 0] agents keeps the first [min N 5]
    dimension labels in its context, in their order; agent [i] explores the
    label of index [i mod min N 5], keeps the caller's prompt without any
    framing prefix, and starts with an empty shared analysis; the context
    starts with an empty initial analysis and no insight. *)
Theorem collaborative_dimension_assignment (config : Config) (models : list AIModel)
  (i : nat) :
  (0 < AgentCount config)%Z ->
  models <> [] ->
  i < Z.to_nat (AgentCount config) ->
  exists pool ctx a,
    createCollaborativeSociety config models = Val pool /\
    Context pool = Some ctx /\
    Dimensions ctx = firstn (Z.to_nat (AgentCount config)) allDimensions /\
    length (Dimensions ctx) = Nat.min (Z.to_nat (AgentCount config)) 5 /\
    InitialAnalysis ctx = "" /\
    SharedInsights ctx = [] /\
    nth_error (Agents pool) i = Some a /\
    ID a = Z.of_nat i /\
    Prompt a = cfgPrompt config /\
    SharedAnalysis a = "" /\
    nth_error (Dimensions ctx) (i mod Nat.min (Z.to_nat (AgentCount config)) 5)
    = Some (DimensionToExplore a).
Proof.
  intros Hn Hne Hi.
  set (n := Z.to_nat (AgentCount config)) in *.
  pose proof (dimensionsFor_length n ltac:(lia)) as Hdim.
  assert (Hlen : length (dimensionsFor n) = Nat.min n 5).
  { rewrite dimensionsFor_firstn, length_firstn. reflexivity. }
  exists (mkGroup (map (collaborativeAgent config models) (seq 0 n))
            models (cfgMultiModel config) (makeChan n)
            (Some (mkContext "" (dimensionsFor n) []))).
  exists (mkContext "" (dimensionsFor n) []), (collaborativeAgent config models i).
  split; [now apply createCollaborativeSociety_spec |].
  split; [reflexivity |].
  split; [apply dimensionsFor_firstn |].
  split; [exact Hlen |].
  split; [reflexivity |]. split; [reflexivity |].
  split; [now apply nth_error_pool |].
  split; [reflexivity |]. split; [reflexivity |]. split; [reflexivity |].
  cbn [Dimensions]. unfold collaborativeAgent. cbn [DimensionToExplore]. fold n.
  rewrite <- Hlen. apply nth_error_nth'. apply Nat.mod_upper_bound. lia.
Qed.

Lemma collaborative_dimension_assignment_witness :
  (0 < AgentCount (mkConfig "X" 7 true true))%Z /\
  [Some 1] <> [] /\
  6 < Z.to_nat (AgentCount (mkConfig "X" 7 true true)) /\
  exists pool ctx a,
    createCollaborativeSociety (mkConfig "X" 7 true true) [Some 1] = Val pool /\
    Context pool = Some ctx /\
    Dimensions ctx = firstn (Z.to_nat (AgentCount (mkConfig "X" 7 true true))) allDimensions /\
    length (Dimensions ctx) = Nat.min (Z.to_nat (AgentCount (mkConfig "X" 7 true true))) 5 /\
    InitialAnalysis ctx = "" /\
    SharedInsights ctx = [] /\
    nth_error (Agents pool) 6 = Some a /\
    ID a = Z.of_nat 6 /\
    Prompt a = cfgPrompt (mkConfig "X" 7 true true) /\
    SharedAnalysis a = "" /\
    nth_error (Dimensions ctx)
      (6 mod Nat.min (Z.to_nat (AgentCount (mkConfig "X" 7 true true))) 5)
    = Some (DimensionToExplore a).
Proof.
  split; [reflexivity |]. split; [discriminate |]. split; [simpl; lia |].
  apply (collaborative_dimension_assignment (mkConfig "X" 7 true true) [Some 1] 6);
    [reflexivity | discriminate | simpl; lia].
Defined.

(** X2. For a negative index, [generatePromptForAgent] panics (index out of
    range) unless the index is a multiple of 5, in which case it uses the
    first prefix: Go's remainder keeps the sign of the dividend. *)
Theorem generatePromptForAgent_negative (basePrompt : string) (agentID : Z) :
  (agentID < 0)%Z ->
  (Z.rem agentID 5 <> 0%Z ->
   generatePromptForAgent basePrompt agentID = Panic IndexOutOfRange) /\
  (Z.rem agentID 5 = 0%Z ->
   generatePromptForAgent basePrompt agentID
   = Val ("Analyse cette demande de manière factuelle et concise: " ++ basePrompt)).
Proof.
  intros Hneg. unfold generatePromptForAgent.
  change (Z.of_nat (length perspectives)) with 5%Z.
  pose proof (Z.rem_nonpos agentID 5 ltac:(lia) ltac:(lia)) as Hrem.
  split; intros Hcase.
  - destruct (Z.ltb_spec (Z.rem agentID 5) 0); [reflexivity | lia].
  - rewrite Hcase. reflexivity.
Qed.

Lemma generatePromptForAgent_negative_witness :
  ((-3 < 0)%Z /\ Z.rem (-3) 5 <> 0%Z /\
   generatePromptForAgent "X" (-3) = Panic IndexOutOfRange) /\
  ((-10 < 0)%Z /\ Z.rem (-10) 5 = 0%Z /\
   generatePromptForAgent "X" (-10)
   = Val ("Analyse cette demande de manière factuelle et concise: " ++ "X")).
Proof.
  split.
  - split; [lia |]. split; [discriminate |].
    apply (proj1 (generatePromptForAgent_negative "X" (-3) ltac:(lia))). discriminate.
  - split; [lia |]. split; [reflexivity |].
    apply (proj2 (generatePromptForAgent_negative "X" (-10) ltac:(lia))). reflexivity.
Defined.

(** * The [Run] functions called without the guards of the entry points *)

(** X3. Called directly, [RunSociety], [RunSocietyWithSynthesis] and
    [RunSocietyCollaborative] panic while building the pool when the agent
    count is negative (length out of range) and when the count is positive but
    the capability list is empty (index out of range): only the guards of
    [Society], [SocietyWithSynthesis] and [SocietyCollaborative] turn these
    inputs into errors. *)
Theorem unguarded_runs_panic {World : Type}
  (Process : ModelId -> string -> World -> (string + error) * World)
  (sched : list nat) (config : Config) (models : list AIModel) (synthModel : AIModel)
  (st : St World) :
  ((AgentCount config < 0)%Z ->
   RunSociety Process sched config models st = Panic MakeOutOfRange /\
   RunSocietyWithSynthesis Process sched config models synthModel st = Panic MakeOutOfRange /\
   RunSocietyCollaborative Process sched config models st = Panic MakeOutOfRange) /\
  ((0 < AgentCount config)%Z -> models = [] ->
   RunSociety Process sched config models st = Panic IndexOutOfRange /\
   RunSocietyWithSynthesis Process sched config models synthModel st = Panic IndexOutOfRange /\
   RunSocietyCollaborative Process sched config models st = Panic IndexOutOfRange).
Proof.
  unfold RunSociety, RunSocietyWithSynthesis, RunSocietyCollaborative, bind, lift,
    createSociety, createCollaborativeSociety.
  split.
  - intros Hneg. destruct (Z.ltb_spec (AgentCount config) 0); [auto | lia].
  - intros Hpos Hnil. subst models.
    destruct (Z.ltb_spec (AgentCount config) 0); [lia |].
    destruct (Z.to_nat (AgentCount config)) as [| n] eqn:Hn; [lia |].
    cbn [societyAgents collaborativeAgents].
    unfold assignModel. cbn [length Nat.ltb Nat.leb]. rewrite andb_false_r.
    unfold index. cbn [nth_error res_bind]. auto.
Qed.

Lemma unguarded_runs_panic_witness :
  ((AgentCount (mkConfig "X" (-1) true false) < 0)%Z /\
   RunSociety echoProcess [] (mkConfig "X" (-1) true false) [Some 1] startState
   = Panic MakeOutOfRange) /\
  ((0 < AgentCount (mkConfig "X" 2 true true))%Z /\ @nil AIModel = [] /\
   RunSocietyCollaborative echoProcess [0; 1] (mkConfig "X" 2 true true) [] startState
   = Panic IndexOutOfRange).
Proof.
  split.
  - split; [reflexivity |].
    apply (proj1 (unguarded_runs_panic echoProcess [] (mkConfig "X" (-1) true false)
                    [Some 1] None startState)).
    reflexivity.
  - split; [reflexivity |]. split; [reflexivity |].
    apply (proj2 (unguarded_runs_panic echoProcess [0; 1] (mkConfig "X" 2 true true)
                    [] None startState)); reflexivity.
Defined.

Lemma goroutines_no_agents {World : Type}
  (worker : Agent -> Chan error -> Chan string -> M World (Chan error * Chan string))
  (sched : list nat) (errs : Chan error) (results : Chan string) (st : St World) :
  goroutines worker [] sched errs results st = Val ((errs, results), st).
Proof.
  induction sched as [| k later IH]; [reflexivity |].
  cbn [goroutines]. now destruct k.
Qed.

(** X4. Called directly with an agent count of 0, whatever the capability
    list and the schedule: [RunSociety] returns the bare report header and no
    error without calling any capability; [RunSocietyCollaborative] fails with
    the error "aucun agent disponible pour l'analyse" without calling any
    capability; [RunSocietyWithSynthesis] still calls the synthesis
    capability, once, on a prompt that holds no agent section, and returns no
    error. *)
Theorem runs_on_empty_pool {World : Type}
  (Process : ModelId -> string -> World -> (string + error) * World)
  (sched : list nat) (config : Config) (models : list AIModel) (st : St World) :
  AgentCount config = 0%Z ->
  RunSociety Process sched config models st = Val ((reportHeader, None), st) /\
  RunSocietyCollaborative Process sched config models st
  = Val (("", Some (errorsNew "aucun agent disponible pour l'analyse")), st) /\
  (forall synth,
      exists text,
        RunSocietyWithSynthesis Process sched config models (Some synth) st
        = Val ((text, None),
               mkSt (snd (Process synth (synthesisPrompt []) (world st)))
                 (trace st ++ [mkCall synth (synthesisPrompt [])
                                 (fst (Process synth (synthesisPrompt []) (world st)))]))).
Proof.
  intros Hzero.
  unfold RunSociety, RunSocietyWithSynthesis, RunSocietyCollaborative, bind, lift,
    createSociety, createCollaborativeSociety.
  rewrite Hzero. cbn [Z.ltb Z.compare Z.to_nat societyAgents collaborativeAgents res_bind].
  unfold run, bind. cbn [Agents Results length].
  rewrite !goroutines_no_agents. cbn [fst snd ret firstError makeChan buffer].
  split; [| split].
  - unfold ret. cbn [fst]. unfold collectResults, withResults. reflexivity.
  - reflexivity.
  - intros synth. unfold ret. cbn [fst snd].
    unfold collectResultsWithSynthesisModel, bind, lift, withResults.
    cbn [Agents Results length drain res_bind fst snd].
    unfold SynthesizeWithModel, callProcess. cbn [fst snd].
    destruct (fst (Process synth (synthesisPrompt []) (world st)));
      eexists; reflexivity.
Qed.

Lemma runs_on_empty_pool_witness :
  AgentCount (mkConfig "X" 0 true false) = 0%Z /\
  RunSociety echoProcess [0; 1] (mkConfig "X" 0 true false) [] startState
  = Val ((reportHeader, None), startState) /\
  RunSocietyCollaborative echoProcess [0; 1] (mkConfig "X" 0 true false) [] startState
  = Val (("", Some (errorsNew "aucun agent disponible pour l'analyse")), startState).
Proof.
  split; [reflexivity |].
  destruct (runs_on_empty_pool echoProcess [0; 1] (mkConfig "X" 0 true false) []
              startState eq_refl) as (Hstandard & Hcollaborative & _).
  split; assumption.
Defined.

(** * The exploration phase on its own *)



Lemma answers_asked {World : Type}
  (Process : ModelId -> string -> World -> (string + error) * World)
  (promptOf : Agent -> string) (workers : list Agent) (w : World) :
  Forall (fun a => Model a <> None) workers ->
  map asked (fst (answers Process promptOf workers w)) = map promptOf workers.
Proof.
  revert w. induction workers as [| a later IH]; intros w Hm; simpl.
  - reflexivity.
  - inversion Hm as [| ? ? Ha Hlater]; subst.
    destruct (Model a); [| congruence]. simpl. now rewrite IH.
Qed.



(** * The calls of the standard and synthesis modes *)

(** X6. On a valid input and for every completion order, the calls that
    [Society] makes are one per agent, in completion order: the call of agent
    [i] goes to the capability bound to it and asks [perspectives[i mod 5]]
    followed by the caller's prompt.  Every call goes to an entry of the
    capability list, and to its first entry when the multi-capability flag is
    off or the list has a single entry.  When no call failed, entry [k] of the
    report is the answer to call [k]. *)
Theorem standard_run_calls {World : Type}
  (Process : ModelId -> string -> World -> (string + error) * World)
  (sched : list nat) (prompt : string) (agentCount : Z) (models : list AIModel)
  (multiModel : bool) (st : St World) :
  (0 < agentCount)%Z ->
  models <> [] ->
  Forall (fun m => m <> None) models ->
  is_schedule (Z.to_nat agentCount) sched = true ->
  exists result st' calls,
    Society Process sched prompt agentCount models multiModel st = Val (result, st') /\
    trace st' = (trace st ++ calls)%list /\
    map (fun c => Some (callee c)) calls = map (modelOf multiModel models) sched /\
    map asked calls = map (fun i => nth (i mod 5) perspectives "" ++ prompt) sched /\
    Forall (fun c => In (Some (callee c)) models) calls /\
    (multiModel = false \/ length models = 1 ->
     Forall (fun c => nth_error models 0 = Some (Some (callee c))) calls) /\
    (failures calls = [] ->
     result = (reportHeader ++ joined (map agentLine (labelled 1 (successes calls))), None) /\
     length (successes calls) = Z.to_nat agentCount).
Proof.
  intros Hn Hne Hsome Hsched.
  pose proof (Society_spec Process sched prompt agentCount models multiModel
                Hn Hne Hsome Hsched st) as Hrun.
  cbv zeta in Hrun.
  pose proof (standard_models_bound sched prompt agentCount models multiModel Hne Hsome)
    as Hbound.
  set (config := mkConfig prompt agentCount multiModel false) in *.
  set (calls := fst (answers Process Prompt (map (standardAgent config models) sched)
                       (world st))) in *.
  assert (Hcallees : map (fun c => Some (callee c)) calls
                     = map (modelOf multiModel models) sched).
  { unfold calls. rewrite answers_callee by assumption. now rewrite map_map. }
  eexists _, _, calls.
  split; [exact Hrun |]. split; [reflexivity |].
  split; [exact Hcallees |].
  split; [unfold calls; rewrite answers_asked by assumption; now rewrite map_map |].
  assert (Hin : Forall (fun c => In (Some (callee c)) models) calls).
  { apply Forall_forall. intros c Hc.
    apply (in_map (fun c => Some (callee c))) in Hc. rewrite Hcallees in Hc.
    apply in_map_iff in Hc as (i & Hi & _). rewrite <- Hi. now apply modelOf_In. }
  split; [exact Hin |].
  split.
  - intros Hsingle. apply Forall_forall. intros c Hc.
    apply (in_map (fun c => Some (callee c))) in Hc. rewrite Hcallees in Hc.
    apply in_map_iff in Hc as (i & Hi & _). rewrite <- Hi.
    unfold modelOf.
    assert (Hflag : multiModel && (1 <? length models)%nat = false).
    { destruct Hsingle as [Hoff | Hone]; [now rewrite Hoff |].
      rewrite Hone. apply andb_false_r. }
    rewrite Hflag. apply nth_error_nth'.
    destruct models; simpl; [congruence | lia].
  - intros Hnone. rewrite Hnone. rewrite appendAgentLines_spec.
    split; [reflexivity |].
    unfold calls. now apply standard_results_complete.
Qed.

Lemma standard_run_calls_witness :
  (0 < 3)%Z /\
  [Some 1; Some 2] <> [] /\
  is_schedule (Z.to_nat 3) [2; 0; 1] = true /\
  exists result st' calls,
    Society echoProcess [2; 0; 1] "X" 3 [Some 1; Some 2] true startState
    = Val (result, st') /\
    trace st' = (trace startState ++ calls)%list /\
    map (fun c => Some (callee c)) calls = map (modelOf true [Some 1; Some 2]) [2; 0; 1] /\
    map asked calls = map (fun i => nth (i mod 5) perspectives "" ++ "X") [2; 0; 1] /\
    Forall (fun c => In (Some (callee c)) [Some 1; Some 2]) calls /\
    (true = false \/ length [Some 1; Some 2] = 1 ->
     Forall (fun c => nth_error [Some 1; Some 2] 0 = Some (Some (callee c))) calls) /\
    (failures calls = [] ->
     result = (reportHeader ++ joined (map agentLine (labelled 1 (successes calls))), None) /\
     length (successes calls) = Z.to_nat 3).
Proof.
  split; [lia |]. split; [discriminate |]. split; [reflexivity |].
  apply (standard_run_calls echoProcess [2; 0; 1] "X" 3 [Some 1; Some 2] true startState).
  - lia.
  - discriminate.
  - repeat constructor; discriminate.
  - reflexivity.
Defined.

(** X7. On a valid input, [SocietyWithSynthesis] calls the synthesis
    capability only once every agent's call has succeeded, and then exactly
    once, after the agents' calls, on the prompt built from their answers in
    completion order.  If an agent's call failed, the synthesis capability is
    not called and the result is the empty text with the first failure.
    Otherwise no error is returned, whatever the synthesis call answers, and
    when it succeeds the text is the report followed by the consolidated
    conclusion made of its answer. *)
Theorem synthesis_only_after_success {World : Type}
  (Process : ModelId -> string -> World -> (string + error) * World)
  (sched : list nat) (prompt : string) (agentCount : Z) (models : list AIModel)
  (multiModel : bool) (synth : ModelId) (st : St World) :
  (0 < agentCount)%Z ->
  models <> [] ->
  Forall (fun m => m <> None) models ->
  is_schedule (Z.to_nat agentCount) sched = true ->
  exists result st' calls extra,
    SocietyWithSynthesis Process sched prompt agentCount models multiModel (Some synth) st
    = Val (result, st') /\
    trace st' = (trace st ++ calls ++ extra)%list /\
    length calls = Z.to_nat agentCount /\
    map (fun c => Some (callee c)) calls = map (modelOf multiModel models) sched /\
    (forall err others,
        failures calls = err :: others -> extra = [] /\ result = ("", Some err)) /\
    (failures calls = [] ->
     exists answer,
       extra = [mkCall synth (synthesisPrompt (successes calls)) answer] /\
       snd result = None /\
       (forall synthesis,
           answer = inl synthesis ->
           fst result
           = reportHeader ++ joined (map agentLine (labelled 1 (successes calls))) ++
             nl ++ "Conclusion consolidée (via modèle de synthèse):" ++ nl ++ synthesis)).
Proof.
  intros Hn Hne Hsome Hsched.
  pose proof (SocietyWithSynthesis_spec Process sched prompt agentCount models multiModel
                Hn Hne Hsome Hsched synth st) as Hrun.
  cbv zeta in Hrun.
  pose proof (standard_models_bound sched prompt agentCount models multiModel Hne Hsome)
    as Hbound.
  set (config := mkConfig prompt agentCount multiModel false) in *.
  set (outcome := answers Process Prompt (map (standardAgent config models) sched)
                    (world st)) in *.
  assert (Hlen : length (fst outcome) = Z.to_nat agentCount).
  { unfold outcome. rewrite answers_length, length_map by assumption.
    now apply is_schedule_length. }
  assert (Hcallees : map (fun c => Some (callee c)) (fst outcome)
                     = map (modelOf multiModel models) sched).
  { unfold outcome. rewrite answers_callee by assumption. now rewrite map_map. }
  destruct (failures (fst outcome)) as [| err others] eqn:Hfail.
  - eexists _, _, (fst outcome), _.
    split; [exact Hrun |]. split; [reflexivity |].
    split; [exact Hlen |]. split; [exact Hcallees |].
    split; [intros ? ? Habsurd; congruence |].
    intros _. eexists. split; [reflexivity |]. split; [reflexivity |].
    intros synthesis Hanswer. cbn [fst]. rewrite Hanswer.
    rewrite appendAgentLines_spec, append_assoc. reflexivity.
  - eexists _, _, (fst outcome), [].
    split; [exact Hrun |]. split; [cbn [trace]; now rewrite app_nil_r |].
    split; [exact Hlen |]. split; [exact Hcallees |].
    split; [| intros Habsurd; congruence].
    intros err' others' Heq. rewrite Hfail in Heq. inversion Heq; subst. now split.
Qed.

Lemma synthesis_only_after_success_witness :
  (0 < 2)%Z /\
  [Some 1; Some 2] <> [] /\
  is_schedule (Z.to_nat 2) [1; 0] = true /\
  exists result st' calls extra,
    SocietyWithSynthesis echoProcess [1; 0] "X" 2 [Some 1; Some 2] true (Some 3) startState
    = Val (result, st') /\
    trace st' = (trace startState ++ calls ++ extra)%list /\
    length calls = Z.to_nat 2 /\
    map (fun c => Some (callee c)) calls = map (modelOf true [Some 1; Some 2]) [1; 0] /\
    (forall err others,
        failures calls = err :: others -> extra = [] /\ result = ("", Some err)) /\
    (failures calls = [] ->
     exists answer,
       extra = [mkCall 3 (synthesisPrompt (successes calls)) answer] /\
       snd result = None /\
       (forall synthesis,
           answer = inl synthesis ->
           fst result
           = reportHeader ++ joined (map agentLine (labelled 1 (successes calls))) ++
             nl ++ "Conclusion consolidée (via modèle de synthèse):" ++ nl ++ synthesis)).
Proof.
  split; [lia |]. split; [discriminate |]. split; [reflexivity |].
  apply (synthesis_only_after_success echoProcess [1; 0] "X" 2 [Some 1; Some 2] true 3
           startState).
  - lia.
  - discriminate.
  - repeat constructor; discriminate.
  - reflexivity.
Defined.

(** * How the context flows through the collaborative pipeline *)

Lemma pool_first (f : nat -> Agent) (n : nat) :
  0 < n -> map f (seq 0 n) = f 0 :: map f (seq 1 (n - 1)).
Proof.
  intros Hn. destruct n as [| n]; [lia |].
  simpl. now rewrite Nat.sub_0_r.
Qed.

(** X8. A collaborative run that returns without error made exactly these
    calls, in this order: the analysis prompt (built on the caller's prompt)
    to the first agent's capability; one exploration call per agent, in
    completion order, whose prompt embeds the answer to the analysis call, the
    agent's dimension and the caller's prompt; the integration prompt, built
    from the analysis answer and the exploration answers, to the first
    agent's capability; and the response prompt, which embeds the answer to
    the integration call and the caller's prompt, to the first agent's
    capability.  The text returned is the answer to that last call. *)
Theorem collaborative_context_flow {World : Type}
  (Process : ModelId -> string -> World -> (string + error) * World)
  (sched : list nat) (prompt : string) (agentCount : Z) (models : list AIModel)
  (multiModel : bool) (st st' : St World) (answer : string) :
  (0 < agentCount)%Z ->
  models <> [] ->
  Forall (fun m => m <> None) models ->
  is_schedule (Z.to_nat agentCount) sched = true ->
  SocietyCollaborative Process sched prompt agentCount models multiModel st
  = Val ((answer, None), st') ->
  exists m0 analysis explored integration integrated,
    modelOf multiModel models 0 = Some m0 /\
    trace st'
    = (trace st ++
       mkCall m0
         (analysisPrompt
            (collaborativeAgent (mkConfig prompt agentCount multiModel true) models 0))
         (inl analysis)
       :: explored ++
       [mkCall m0 integration (inl integrated);
        mkCall m0
          (responsePrompt
             (setSharedAnalysis integrated
                (collaborativeAgent (mkConfig prompt agentCount multiModel true) models 0)))
          (inl answer)])%list /\
    map asked explored
    = map (fun i =>
             explorationPrompt
               (setSharedAnalysis analysis
                  (collaborativeAgent (mkConfig prompt agentCount multiModel true) models i)))
        sched /\
    map (fun c => Some (callee c)) explored = map (modelOf multiModel models) sched /\
    failures explored = [] /\
    length (successes explored) = Z.to_nat agentCount /\
    integrationPrompt
      (map (fun i =>
              setSharedAnalysis analysis
                (collaborativeAgent (mkConfig prompt agentCount multiModel true) models i))
         (seq 0 (Z.to_nat agentCount)))
      (mkContext analysis (firstn (Z.to_nat agentCount) allDimensions) (successes explored))
    = Val integration.
Proof.
  intros Hn Hne Hsome Hsched Hrun.
  destruct (first_model models multiModel Hne Hsome) as (m0 & Hm0).
  pose proof (is_schedule_length _ _ Hsched) as Hlen.
  pose proof (is_schedule_bound _ _ Hsched) as Hbound.
  set (config := mkConfig prompt agentCount multiModel true) in *.
  set (member := collaborativeAgent config models) in *.
  set (n := Z.to_nat agentCount) in *.
  unfold SocietyCollaborative in Hrun.
  destruct (Z.leb_spec agentCount 0) as [Hneg | _]; [lia |].
  rewrite (proj2 (Nat.eqb_neq (length models) 0)) in Hrun
    by (intros Hnil; apply length_zero_iff_nil in Hnil; congruence).
  unfold RunSocietyCollaborative, bind, lift in Hrun. fold config in Hrun.
  rewrite createCollaborativeSociety_spec in Hrun by (simpl; trivial).
  cbn [AgentCount config cfgMultiModel] in Hrun. fold member n in Hrun.
  (* phase 1 *)
  rewrite (performInitialAnalysis_spec Process _ (member 0)
             (map member (seq 1 (n - 1))) m0 (mkContext "" (dimensionsFor n) []))
    in Hrun; [| apply pool_first; unfold n; lia | exact Hm0 | reflexivity].
  cbn [fst snd] in Hrun.
  destruct (fst (Process m0 (analysisPrompt (member 0)) (world st)))
    as [t1 | e1] eqn:H1; [| discriminate Hrun].
  cbn [fst snd] in Hrun. group_norm_in Hrun. rewrite map_map in Hrun.
  set (grown := fun k => setSharedAnalysis t1 (member k)) in *.
  set (ctx1 := mkContext t1 (dimensionsFor n) []) in *.
  assert (Hworkers : scheduled (map grown (seq 0 n)) sched = map grown sched)
    by now apply scheduled_pool.
  assert (Hsize : length (map grown (seq 0 n)) = n)
    by now rewrite length_map, length_seq.
  assert (Hbound' : Forall (fun a => Model a <> None) (map grown sched)).
  { apply Forall_map, Forall_forall. intros k _. simpl.
    apply (proj1 (Forall_forall _ _) Hsome), modelOf_In, Hne. }
  (* phase 2 *)
  rewrite (exploreDimensions_spec Process sched _ ctx1) in Hrun;
    group_norm; rewrite ?Hworkers, ?Hsize, ?length_map; trivial.
  cbn [fst snd world trace] in Hrun. group_norm_in Hrun.
  rewrite ?Hworkers, ?Hsize in Hrun.
  set (outcome := answersUntilError Process explorationPrompt (map grown sched)
                    (snd (Process m0 (analysisPrompt (member 0)) (world st)))) in *.
  destruct (failures (fst outcome)) as [| e2 others2] eqn:H2; [| discriminate Hrun].
  cbn [fst snd] in Hrun.
  assert (Hsame : outcome = answers Process explorationPrompt (map grown sched)
                              (snd (Process m0 (analysisPrompt (member 0)) (world st))))
    by (apply until_no_failure; exact H2).
  assert (Hinsights : length (successes (fst outcome)) = n).
  { rewrite (all_succeeded _ H2), Hsame.
    rewrite answers_length by assumption. now rewrite length_map. }
  (* phase 3 *)
  set (ctx2 := mkContext t1 (dimensionsFor n) (successes (fst outcome))) in *.
  match type of Hrun with
  | context [integrateAnalyses Process ?s ?st2] =>
      destruct (integrateAnalyses_spec Process s (grown 0)
                  (map grown (seq 1 (n - 1))) m0 ctx2 st2)
        as (p3 & Hp3 & Hphase3)
  end;
    [apply pool_first; unfold n; lia | exact Hm0 | reflexivity
    | cbn [SharedInsights ctx2]; intros Hnil; rewrite Hnil in Hinsights;
      simpl in Hinsights; unfold n in Hinsights; lia
    | group_norm; cbn [SharedInsights ctx2]; rewrite Hinsights, Hsize; lia |].
  rewrite Hphase3 in Hrun. clear Hphase3. cbn [fst snd world trace] in Hrun.
  destruct (fst (Process m0 p3 (snd outcome))) as [t3 | e3] eqn:H3;
    [| discriminate Hrun].
  cbn [fst snd] in Hrun. group_norm_in Hrun. rewrite map_map in Hrun.
  (* phase 4 *)
  set (final := fun k => setSharedAnalysis t3 (grown k)) in *.
  match type of Hrun with
  | context [generateFinalResponse Process ?s ?st3] =>
      rewrite (generateFinalResponse_spec Process s (final 0)
                 (map final (seq 1 (n - 1))) m0 st3) in Hrun;
        [| apply pool_first; unfold n; lia | exact Hm0]
  end.
  cbn [fst snd world trace] in Hrun.
  destruct (fst (Process m0 (responsePrompt (final 0)) (snd (Process m0 p3 (snd outcome)))))
    as [t4 | e4] eqn:H4; [| discriminate Hrun].
  cbn [fst snd] in Hrun. unfold ret in Hrun. inversion Hrun; subst answer st'. clear Hrun.
  exists m0, t1, (fst outcome), p3, t3.
  split; [exact Hm0 |].
  split; [cbn [trace]; rewrite <- !app_assoc; reflexivity |].
  split; [rewrite Hsame, answers_asked by assumption; now rewrite map_map |].
  split; [rewrite Hsame, answers_callee by assumption; now rewrite map_map |].
  split; [exact H2 |]. split; [exact Hinsights |].
  rewrite <- dimensionsFor_firstn. exact Hp3.
Qed.

Lemma collaborative_context_flow_witness :
  (0 < 2)%Z /\
  [Some 1; Some 2] <> [] /\
  is_schedule (Z.to_nat 2) [1; 0] = true /\
  SocietyCollaborative okProcess [1; 0] "X" 2 [Some 1; Some 2] true startState
  = Val ((exampleAnswer, None), exampleFinalState) /\
  exists m0 analysis explored integration integrated,
    modelOf true [Some 1; Some 2] 0 = Some m0 /\
    trace exampleFinalState
    = (trace startState ++
       mkCall m0
         (analysisPrompt (collaborativeAgent (mkConfig "X" 2 true true) [Some 1; Some 2] 0))
         (inl analysis)
       :: explored ++
       [mkCall m0 integration (inl integrated);
        mkCall m0
          (responsePrompt
             (setSharedAnalysis integrated
                (collaborativeAgent (mkConfig "X" 2 true true) [Some 1; Some 2] 0)))
          (inl exampleAnswer)])%list /\
    map asked explored
    = map (fun i =>
             explorationPrompt
               (setSharedAnalysis analysis
                  (collaborativeAgent (mkConfig "X" 2 true true) [Some 1; Some 2] i)))
        [1; 0] /\
    map (fun c => Some (callee c)) explored = map (modelOf true [Some 1; Some 2]) [1; 0] /\
    failures explored = [] /\
    length (successes explored) = Z.to_nat 2 /\
    integrationPrompt
      (map (fun i =>
              setSharedAnalysis analysis
                (collaborativeAgent (mkConfig "X" 2 true true) [Some 1; Some 2] i))
         (seq 0 (Z.to_nat 2)))
      (mkContext analysis (firstn (Z.to_nat 2) allDimensions) (successes explored))
    = Val integration.
Proof.
  split; [lia |]. split; [discriminate |]. split; [reflexivity |].
  split; [vm_compute; reflexivity |].
  apply (collaborative_context_flow okProcess [1; 0] "X" 2 [Some 1; Some 2] true
           startState exampleFinalState exampleAnswer).
  - lia.
  - discriminate.
  - repeat constructor; discriminate.
  - reflexivity.
  - vm_compute. reflexivity.
Defined.



(** * The Gemini client: retries and conversation *)

Lemma retryLoop_spec {Net : Type}
  (exchange : string -> list Gemini.Message -> Net -> Gemini.Exchange * Net) :
  forall (remaining : nat) (attempt : Z) (lastError : option error)
         (m : Gemini.GeminiModel) (n : Net) (done : list Gemini.Exchange) (slept : list Z),
  exists new,
    Gemini.exchanges (Gemini.retryLoop exchange remaining attempt lastError m n done slept)
    = (done ++ new)%list /\
    length new <= remaining /\
    Gemini.sleeps (Gemini.retryLoop exchange remaining attempt lastError m n done slept)
    = (slept ++ Gemini.backoff (Gemini.RetryDelay m) attempt (length new))%list /\
    (forall text,
        Gemini.returned (Gemini.retryLoop exchange remaining attempt lastError m n done slept)
        = inl text ->
        exists earlier x,
          new = (earlier ++ [x])%list /\
          Forall Gemini.failed earlier /\
          Gemini.attemptOutcome x = inl text /\
          Gemini.model (Gemini.retryLoop exchange remaining attempt lastError m n done slept)
          = Gemini.appendMessage m "model" text) /\
    (forall err,
        Gemini.returned (Gemini.retryLoop exchange remaining attempt lastError m n done slept)
        = inr err ->
        length new = remaining /\
        Forall Gemini.failed new /\
        Gemini.model (Gemini.retryLoop exchange remaining attempt lastError m n done slept)
        = m /\
        err = errorsNew ("échec après " ++ Sprintf_d (Gemini.MaxRetries m) ++
                         " tentatives: " ++
                         Gemini.Sprintf_v (Gemini.lastFailure lastError new))).
Proof.
  induction remaining as [| remaining IH]; intros attempt lastError m n done slept.
  - exists []. cbn [Gemini.retryLoop Gemini.exchanges Gemini.sleeps Gemini.returned
                     Gemini.model length Gemini.backoff].
    rewrite !app_nil_r.
    split; [reflexivity |]. split; [lia |]. split; [reflexivity |].
    split; [intros text H; discriminate H |].
    intros err H. inversion H. repeat split; trivial.
  - cbn [Gemini.retryLoop]. cbv zeta.
    set (x := fst (exchange (Gemini.fullURL m) (Gemini.Conversation m) n)).
    set (slept' := if (0 <? attempt)%Z
                   then (slept ++ [Gemini.wrapDuration (Gemini.RetryDelay m * attempt)])%list else slept).
    assert (Hslept : slept' = (slept ++ (if (0 <? attempt)%Z
                                         then [Gemini.wrapDuration (Gemini.RetryDelay m * attempt)]
                                         else []))%list).
    { unfold slept'. destruct (0 <? attempt)%Z; [reflexivity | now rewrite app_nil_r]. }
    destruct (Gemini.attemptOutcome x) as [text | err] eqn:Hx.
    + exists [x]. cbn [Gemini.exchanges Gemini.sleeps Gemini.returned Gemini.model length
                        Gemini.backoff].
      rewrite app_nil_r.
      split; [reflexivity |]. split; [lia |]. split; [exact Hslept |].
      split.
      * intros text' H. inversion H; subst text'.
        exists [], x. repeat split; trivial.
      * intros err' H. discriminate H.
    + destruct (IH (attempt + 1)%Z (Some err) m
                  (snd (exchange (Gemini.fullURL m) (Gemini.Conversation m) n))
                  (done ++ [x])%list slept')
        as (new & Hdone & Hlen & Hsleeps & Hok & Hko).
      exists (x :: new).
      split; [rewrite Hdone, <- app_assoc; reflexivity |].
      split; [simpl; lia |].
      split; [rewrite Hsleeps, Hslept, <- app_assoc; reflexivity |].
      assert (Hfailed : Gemini.failed x) by now exists err.
      split.
      * intros text H. destruct (Hok text H) as (earlier & y & Hnew & Hearlier & Hy & Hmodel).
        exists (x :: earlier), y. rewrite Hnew.
        repeat split; trivial. now constructor.
      * intros err' H. destruct (Hko err' H) as (Hall & Hfails & Hmodel & Herr).
        repeat split; trivial; [simpl; lia | now constructor |].
        rewrite Herr. unfold Gemini.lastFailure. cbn [fold_left]. now rewrite Hx.
Qed.

Lemma backoff_positive (delay : Z) (count : nat) :
  forall attempt,
    (0 < attempt)%Z ->
    Gemini.backoff delay attempt count
    = map (fun i => Gemini.wrapDuration (delay * (attempt + Z.of_nat i))) (seq 0 count).
Proof.
  induction count as [| count IH]; intros attempt Hpos; [reflexivity |].
  cbn [Gemini.backoff]. rewrite (proj2 (Z.ltb_lt 0 attempt) Hpos).
  rewrite IH by lia. cbn [seq map app]. rewrite Z.add_0_r. f_equal.
  rewrite <- seq_shift, map_map. apply map_ext. intros i. do 2 f_equal. lia.
Qed.

Lemma backoff_from_zero (delay : Z) (count : nat) :
  Gemini.backoff delay 0 count
  = map (fun k => Gemini.wrapDuration (delay * Z.of_nat k)) (seq 1 (count - 1)).
Proof.
  destruct count as [| count]; [reflexivity |].
  cbn [Gemini.backoff Z.ltb Z.compare app]. rewrite backoff_positive by lia.
  rewrite Nat.sub_succ, Nat.sub_0_r, <- seq_shift, map_map.
  apply map_ext. intros i. do 2 f_equal. lia.
Qed.

(** X10. A call of the Gemini [Process] always appends the prompt to the
    conversation as a "user" message, and appends the answer as a "model"
    message only when it succeeds: after a failed call the prompt stays in
    the history that the next call sends.  The other fields of the model are
    left as they were. *)
Theorem gemini_conversation_growth {Net : Type}
  (exchange : string -> list Gemini.Message -> Net -> Gemini.Exchange * Net)
  (m : Gemini.GeminiModel) (prompt : string) (n : Net) :
  Gemini.Conversation (Gemini.model (Gemini.Process exchange m prompt n))
  = (Gemini.Conversation m ++
     Gemini.mkMessage "user" prompt ::
     match Gemini.returned (Gemini.Process exchange m prompt n) with
     | inl text => [Gemini.mkMessage "model" text]
     | inr _ => []
     end)%list /\
  Gemini.ModelName (Gemini.model (Gemini.Process exchange m prompt n)) = Gemini.ModelName m /\
  Gemini.APIKey (Gemini.model (Gemini.Process exchange m prompt n)) = Gemini.APIKey m /\
  Gemini.BaseURL (Gemini.model (Gemini.Process exchange m prompt n)) = Gemini.BaseURL m /\
  Gemini.MaxRetries (Gemini.model (Gemini.Process exchange m prompt n))
  = Gemini.MaxRetries m /\
  Gemini.RetryDelay (Gemini.model (Gemini.Process exchange m prompt n))
  = Gemini.RetryDelay m.
Proof.
  unfold Gemini.Process. cbv zeta.
  set (asked := Gemini.appendMessage m "user" prompt).
  destruct (retryLoop_spec exchange (Z.to_nat (Gemini.MaxRetries asked + 1)) 0 None
              asked n [] []) as (new & _ & _ & _ & Hok & Hko).
  destruct (Gemini.returned
              (Gemini.retryLoop exchange (Z.to_nat (Gemini.MaxRetries asked + 1)) 0 None
                 asked n [] [])) as [text | err].
  - destruct (Hok text eq_refl) as (_ & _ & _ & _ & _ & Hmodel).
    rewrite Hmodel. unfold asked. cbn. rewrite <- app_assoc. repeat split.
  - destruct (Hko err eq_refl) as (_ & _ & Hmodel & _).
    rewrite Hmodel. unfold asked. cbn. repeat split.
Qed.

(** X11. A call of the Gemini [Process] makes at most [MaxRetries + 1] round
    trips (none when [MaxRetries] is negative).  When it returns a text, the
    text comes from the last round trip made and every earlier one had
    failed.  When it returns an error, all [MaxRetries + 1] round trips were
    made and failed, and the error reads "échec après <MaxRetries>
    tentatives: " followed by the message of the last failure ("<nil>" when
    no round trip was made). *)
Theorem gemini_retry_outcome {Net : Type}
  (exchange : string -> list Gemini.Message -> Net -> Gemini.Exchange * Net)
  (m : Gemini.GeminiModel) (prompt : string) (n : Net) :
  length (Gemini.exchanges (Gemini.Process exchange m prompt n))
  <= Z.to_nat (Gemini.MaxRetries m + 1) /\
  (forall text,
      Gemini.returned (Gemini.Process exchange m prompt n) = inl text ->
      exists earlier x,
        Gemini.exchanges (Gemini.Process exchange m prompt n) = (earlier ++ [x])%list /\
        Forall Gemini.failed earlier /\
        Gemini.attemptOutcome x = inl text) /\
  (forall err,
      Gemini.returned (Gemini.Process exchange m prompt n) = inr err ->
      length (Gemini.exchanges (Gemini.Process exchange m prompt n))
      = Z.to_nat (Gemini.MaxRetries m + 1) /\
      Forall Gemini.failed (Gemini.exchanges (Gemini.Process exchange m prompt n)) /\
      err = errorsNew
              ("échec après " ++ Sprintf_d (Gemini.MaxRetries m) ++ " tentatives: " ++
               Gemini.Sprintf_v
                 (Gemini.lastFailure None
                    (Gemini.exchanges (Gemini.Process exchange m prompt n))))).
Proof.
  unfold Gemini.Process. cbv zeta.
  set (asked := Gemini.appendMessage m "user" prompt).
  change (Gemini.MaxRetries m) with (Gemini.MaxRetries asked).
  destruct (retryLoop_spec exchange (Z.to_nat (Gemini.MaxRetries asked + 1)) 0 None
              asked n [] []) as (new & Hdone & Hlen & _ & Hok & Hko).
  rewrite Hdone. cbn [app].
  split; [exact Hlen |]. split.
  - intros text H. destruct (Hok text H) as (earlier & x & Hnew & Hearlier & Hx & _).
    now exists earlier, x.
  - intros err H. destruct (Hko err H) as (Hall & Hfails & _ & Herr).
    now repeat split.
Qed.

Lemma gemini_retry_outcome_witness :
  (Gemini.returned
     (Gemini.Process (Gemini.flakyExchange 2) (Gemini.NewGeminiModel "g" "k") "X" 0)
   = inl "Bonjour" /\
   exists earlier x,
     Gemini.exchanges
       (Gemini.Process (Gemini.flakyExchange 2) (Gemini.NewGeminiModel "g" "k") "X" 0)
     = (earlier ++ [x])%list /\
     Forall Gemini.failed earlier /\
     Gemini.attemptOutcome x = inl "Bonjour") /\
  (Gemini.returned
     (Gemini.Process (Gemini.flakyExchange 9) (Gemini.NewGeminiModel "g" "k") "X" 0)
   = inr (errorsNew "échec après 3 tentatives: erreur API: 503 Service Unavailable - busy") /\
   length (Gemini.exchanges
             (Gemini.Process (Gemini.flakyExchange 9) (Gemini.NewGeminiModel "g" "k") "X" 0))
   = Z.to_nat (Gemini.MaxRetries (Gemini.NewGeminiModel "g" "k") + 1)).
Proof.
  split.
  - split; [reflexivity |].
    apply (proj1 (proj2 (gemini_retry_outcome (Gemini.flakyExchange 2)
                           (Gemini.NewGeminiModel "g" "k") "X" 0))).
    reflexivity.
  - split; [reflexivity |].
    apply (proj2 (proj2 (gemini_retry_outcome (Gemini.flakyExchange 9)
                           (Gemini.NewGeminiModel "g" "k") "X" 0))
             (errorsNew "échec après 3 tentatives: erreur API: 503 Service Unavailable - busy")).
    reflexivity.
Defined.

(** X12. The Gemini [Process] does not sleep before its first round trip;
    before the retry number [k] ([k >= 1]) it asks [time.Sleep] for the
    [int64] product of [RetryDelay] by [k].  So as long as these products fit
    in an [int64] the waits are [k] times [RetryDelay]: they grow linearly
    with the attempt. *)
Theorem gemini_linear_backoff {Net : Type}
  (exchange : string -> list Gemini.Message -> Net -> Gemini.Exchange * Net)
  (m : Gemini.GeminiModel) (prompt : string) (n : Net) :
  Gemini.sleeps (Gemini.Process exchange m prompt n)
  = map (fun k => Gemini.wrapDuration (Gemini.RetryDelay m * Z.of_nat k))
      (seq 1 (length (Gemini.exchanges (Gemini.Process exchange m prompt n)) - 1)) /\
  ((forall k, (1 <= k <= Gemini.MaxRetries m)%Z ->
              (- 2 ^ 63 <= Gemini.RetryDelay m * k < 2 ^ 63)%Z) ->
   Gemini.sleeps (Gemini.Process exchange m prompt n)
   = map (fun k => (Gemini.RetryDelay m * Z.of_nat k)%Z)
       (seq 1 (length (Gemini.exchanges (Gemini.Process exchange m prompt n)) - 1))).
Proof.
  assert (Hsleeps :
            Gemini.sleeps (Gemini.Process exchange m prompt n)
            = map (fun k => Gemini.wrapDuration (Gemini.RetryDelay m * Z.of_nat k))
                (seq 1 (length (Gemini.exchanges (Gemini.Process exchange m prompt n))
                        - 1))).
  { unfold Gemini.Process. cbv zeta.
    set (asked := Gemini.appendMessage m "user" prompt).
    change (Gemini.RetryDelay m) with (Gemini.RetryDelay asked).
    destruct (retryLoop_spec exchange (Z.to_nat (Gemini.MaxRetries asked + 1)) 0 None
                asked n [] []) as (new & Hdone & _ & Hsleeps & _).
    rewrite Hdone, Hsleeps. cbn [app]. apply backoff_from_zero. }
  split; [exact Hsleeps |].
  intros Hfits. rewrite Hsleeps. apply map_ext_in. intros k Hk.
  apply in_seq in Hk.
  pose proof (proj1 (gemini_retry_outcome exchange m prompt n)) as Hbound.
  unfold Gemini.wrapDuration.
  assert (Hrange : (1 <= Z.of_nat k <= Gemini.MaxRetries m)%Z).
  { set (len := length (Gemini.exchanges (Gemini.Process exchange m prompt n))) in *.
    lia. }
  specialize (Hfits (Z.of_nat k) Hrange).
  change (2 ^ 63)%Z with 9223372036854775808%Z in *.
  change (2 ^ 64)%Z with 18446744073709551616%Z.
  rewrite Z.mod_small by lia. lia.
Qed.

Lemma gemini_linear_backoff_witness :
  (forall k, (1 <= k <= Gemini.MaxRetries (Gemini.NewGeminiModel "g" "k"))%Z ->
             (- 2 ^ 63 <= Gemini.RetryDelay (Gemini.NewGeminiModel "g" "k") * k < 2 ^ 63)%Z) /\
  Gemini.sleeps
    (Gemini.Process (Gemini.flakyExchange 9) (Gemini.NewGeminiModel "g" "k") "X" 0)
  = map (fun k => (Gemini.RetryDelay (Gemini.NewGeminiModel "g" "k") * Z.of_nat k)%Z)
      (seq 1 (length (Gemini.exchanges
                        (Gemini.Process (Gemini.flakyExchange 9)
                           (Gemini.NewGeminiModel "g" "k") "X" 0)) - 1)).
Proof.
  assert (Hfits : forall k,
             (1 <= k <= Gemini.MaxRetries (Gemini.NewGeminiModel "g" "k"))%Z ->
             (- 2 ^ 63 <= Gemini.RetryDelay (Gemini.NewGeminiModel "g" "k") * k < 2 ^ 63)%Z).
  { intros k Hk. cbn [Gemini.MaxRetries Gemini.RetryDelay Gemini.NewGeminiModel] in *.
    unfold Gemini.Second.
    change (2 ^ 63)%Z with 9223372036854775808%Z. lia. }
  split; [exact Hfits |].
  exact (proj2 (gemini_linear_backoff (Gemini.flakyExchange 9)
                  (Gemini.NewGeminiModel "g" "k") "X" 0) Hfits).
Defined.
